(** * oauth2_proxy: the Okta provider and the request-logging handler

    A shallow embedding of [providers/okta.go] and [logging_handler.go].
    Go values are modelled as follows.

    - [string] and [[]byte] are Rocq strings (sequences of bytes).
    - [int] and [int64] are [Z]; where the source does arithmetic on them
      the two's-complement wrap-around is written out ([wrap64]).
    - [time.Time] is an instant counted in nanoseconds, [time.Duration] an
      [int64] number of nanoseconds.
    - a pointer that the source compares with [nil] is an [option].
    - [http.Header] is a finite map from canonical keys to value lists.
    - a Go [error] is a value of the inductive type [error], by its
      dynamic type.
    - [time.Now], the HTTP round trip and the writes to the log are
      effects: they are threaded through a state monad whose results are
      either a returned value or a run-time panic.  The handler that is
      being logged is given by the calls it makes on its response
      writer. *)

From Stdlib Require Import ZArith Lia Ascii.
From Stdlib Require String.
From stdpp Require Import gmap strings list pretty.

Local Open Scope Z_scope.

(** ** Go run-time conventions *)

Module Go.

(** An [error] value, by the dynamic type the Go value has: the errors of
    [errors.New] and [fmt.Errorf] (and, by their message, those that the
    libraries return), and [*json.UnmarshalTypeError] with the description
    of the JSON value and the name of the Go type it did not fit.  [None] of
    [option error] is the [nil] error. *)
Inductive error : Type :=
  | errorString (msg : string)
  | UnmarshalTypeError (value : string) (gotype : string).

(** [err.Error()] *)
Definition Error (e : error) : string :=
  match e with
  | errorString msg => msg
  | UnmarshalTypeError value gotype =>
      "json: cannot unmarshal " +:+ value +:+ " into Go value of type " +:+ gotype
  end.

Global Instance error_eq_dec : EqDecision error.
Proof. solve_decision. Defined.

(** [int64] arithmetic: the result of an operation is reduced into
    [-2^63, 2^63). *)
Definition int64_min : Z := - 2 ^ 63.
Definition int64_max : Z := 2 ^ 63 - 1.
Definition in_int64 (z : Z) : bool := (int64_min <=? z) && (z <=? int64_max).
Definition wrap64 (z : Z) : Z := (z + 2 ^ 63) `mod` 2 ^ 64 - 2 ^ 63.

(** Package [time].  An instant is the number of nanoseconds since the zero
    time (January 1, year 1, 00:00:00 UTC); the instants a wall clock can
    deliver are far from the limits of Go's representation, so [Add] is
    exact on instants. *)
Definition Time : Type := Z.
Definition Duration : Type := Z.

Definition Nanosecond : Duration := 1.
Definition Second : Duration := 1000000000.

(** [t.After(u)]: t is strictly later than u. *)
Definition After (t u : Time) : bool := u <? t.

(** [t.Add(d)]. *)
Definition Add (t : Time) (d : Duration) : Time := t + d.

(** [t.Truncate(d)]: t rounded down to a multiple of d since the zero
    time; t itself when d <= 0. *)
Definition Truncate (t : Time) (d : Duration) : Time :=
  if d <=? 0 then t else t - t `mod` d.

(** [time.Duration(n) * time.Second] on [int64]. *)
Definition seconds (n : Z) : Duration := wrap64 (n * Second).

(** Results of running Go code: it returns, or it panics. *)
Inductive outcome (A : Type) : Type :=
  | Returns (a : A)
  | Panics (msg : string).
Global Arguments Returns {A} a.
Global Arguments Panics {A} msg.

Definition nil_dereference : string :=
  "runtime error: invalid memory address or nil pointer dereference".

(** Computations over a world [W]: a state monad whose result may be a
    panic. *)
Definition M (W A : Type) : Type := W → outcome A * W.

Definition ret {W A} (a : A) : M W A := λ w, (Returns a, w).
Definition bind {W A B} (c : M W A) (k : A → M W B) : M W B :=
  λ w, match c w with
       | (Returns a, w') => k a w'
       | (Panics msg, w') => (Panics msg, w')
       end.
Definition panic {W A} (msg : string) : M W A := λ w, (Panics msg, w).

Declare Scope go_scope.
Delimit Scope go_scope with go.
Notation "x <- c ;; k" := (bind c (λ x, k))
  (at level 100, c at next level, right associativity) : go_scope.

(** [t.Sub(u)]: the difference as a [Duration], which saturates. *)
Definition Sub (t u : Time) : Duration :=
  Z.max int64_min (Z.min int64_max (t - u)).

End Go.
Export Go.

(** ** Package [net/textproto] and [net/http]: header maps *)

Module Http.

(** A byte that may occur in a header field name (an RFC 7230 token
    character). *)
Definition validHeaderFieldByte (c : ascii) : bool :=
  let n := N.to_nat (Ascii.N_of_ascii c) in
  ((48 <=? n) && (n <=? 57) || (65 <=? n) && (n <=? 90)
   || (97 <=? n) && (n <=? 122))%nat
  || bool_decide (c ∈ ["!"; "#"; "$"; "%"; "&"; "'"; "*"; "+"; "-"; ".";
                        "^"; "_"; "`"; "|"; "~"]%char).

Definition is_lower (c : ascii) : bool :=
  let n := N.to_nat (Ascii.N_of_ascii c) in ((97 <=? n) && (n <=? 122))%nat.
Definition is_upper (c : ascii) : bool :=
  let n := N.to_nat (Ascii.N_of_ascii c) in ((65 <=? n) && (n <=? 90))%nat.
Definition to_upper (c : ascii) : ascii :=
  if is_lower c then Ascii.ascii_of_nat (N.to_nat (Ascii.N_of_ascii c) - 32) else c.
Definition to_lower (c : ascii) : ascii :=
  if is_upper c then Ascii.ascii_of_nat (N.to_nat (Ascii.N_of_ascii c) + 32) else c.

Fixpoint all_bytes (P : ascii → bool) (s : string) : bool :=
  match s with
  | EmptyString => true
  | String c s' => P c && all_bytes P s'
  end.

(** The canonicalising loop: upper case at the start and after each dash,
    lower case elsewhere. *)
Fixpoint canonical_go (upper : bool) (s : string) : string :=
  match s with
  | EmptyString => EmptyString
  | String c s' =>
      let c' := if upper then to_upper c else to_lower c in
      String c' (canonical_go (bool_decide (c' = "-"%char)) s')
  end.

(** [textproto.CanonicalMIMEHeaderKey]: a key holding a byte that is not a
    token character is returned as it is. *)
Definition CanonicalMIMEHeaderKey (s : string) : string :=
  if all_bytes validHeaderFieldByte s then canonical_go true s else s.

(** [http.Header], a [map[string][]string]. *)
Abbreviation Header := (gmap string (list string)).

(** [h.Get(key)]: the first value under the canonical key, or the empty
    string. *)
Definition Get (h : Header) (key : string) : string :=
  match h !! CanonicalMIMEHeaderKey key with
  | Some (v :: _) => v
  | _ => ""
  end.

(** [h.Set(key, value)] replaces the values under the canonical key. *)
Definition Set_ (h : Header) (key value : string) : Header :=
  <[CanonicalMIMEHeaderKey key := [value]]> h.

(** [h.Add(key, value)] appends to the values under the canonical key. *)
Definition Add_ (h : Header) (key value : string) : Header :=
  <[CanonicalMIMEHeaderKey key := default [] (h !! CanonicalMIMEHeaderKey key) ++ [value]]> h.

(** [h.Del(key)] removes every value under the canonical key. *)
Definition Del (h : Header) (key : string) : Header :=
  delete (CanonicalMIMEHeaderKey key) h.

End Http.

(** ** Package [net/url] *)

Module Url.

Record Userinfo : Type := mkUserinfo {
  username : string;
  password : string;
  passwordSet : bool;
}.

Record URL : Type := mkURL {
  Scheme : string;
  Opaque : string;
  User : option Userinfo;
  Host : string;
  Path : string;
  RawPath : string;
  ForceQuery : bool;
  RawQuery : string;
  Fragment : string;
}.

Global Instance Userinfo_eq_dec : EqDecision Userinfo.
Proof. solve_decision. Defined.
Global Instance URL_eq_dec : EqDecision URL.
Proof. solve_decision. Defined.

(** The escaping modes of the package's [escape]. *)
Inductive encoding : Type :=
  | encodePath | encodeHost | encodeUserPassword
  | encodeQueryComponent | encodeFragment.

(** The percent-escaping routines of the package, taken as given. *)
Class Escaping : Type := {
  (** [escape(s, mode)] *)
  escape : encoding → string → string;
  (** [u.EscapedPath()], a function of [u.Path] and [u.RawPath] *)
  EscapedPath : string → string → string;
}.

(** [strings.IndexByte(path, ':')] finds a colon with no slash before
    it. *)
Fixpoint colon_in_first_segment (path : string) : bool :=
  match path with
  | EmptyString => false
  | String c rest =>
      if bool_decide (c = ":"%char) then true
      else if bool_decide (c = "/"%char) then false
      else colon_in_first_segment rest
  end.

Definition starts_with_slash (s : string) : bool :=
  match s with String c _ => bool_decide (c = "/"%char) | EmptyString => false end.

Section String.
Context `{Escaping}.

(** [ui.String()] of a non-nil [*Userinfo]. *)
Definition Userinfo_String (ui : Userinfo) : string :=
  escape encodeUserPassword (username ui)
  +:+ (if passwordSet ui then ":" +:+ escape encodeUserPassword (password ui) else "").

(** [u.String()] of a non-nil [*URL]: scheme, then the opaque part or
    authority and path, then query and fragment.  The two slashes in front
    of the authority are written only when host, path or user is set. *)
Definition URL_String (u : URL) : string :=
  let scheme := if bool_decide (Scheme u = "") then "" else Scheme u +:+ ":" in
  let hier :=
    if bool_decide (Opaque u ≠ "") then Opaque u
    else
      let authority :=
        if bool_decide (Scheme u ≠ "" ∨ Host u ≠ "" ∨ User u ≠ None) then
          (if bool_decide (Host u ≠ "" ∨ Path u ≠ "" ∨ User u ≠ None) then "//" else "")
          +:+ match User u with Some ui => Userinfo_String ui +:+ "@" | None => "" end
          +:+ (if bool_decide (Host u ≠ "") then escape encodeHost (Host u) else "")
        else "" in
      let path := EscapedPath (Path u) (RawPath u) in
      let slash :=
        if bool_decide (path ≠ "") && negb (starts_with_slash path)
           && bool_decide (Host u ≠ "") then "/" else "" in
      let dot :=
        if bool_decide (scheme +:+ authority +:+ slash = "")
           && colon_in_first_segment path then "./" else "" in
      authority +:+ slash +:+ dot +:+ path in
  let query :=
    if ForceQuery u || bool_decide (RawQuery u ≠ "") then "?" +:+ RawQuery u else "" in
  let fragment :=
    if bool_decide (Fragment u ≠ "") then "#" +:+ escape encodeFragment (Fragment u)
    else "" in
  scheme +:+ hier +:+ query +:+ fragment.

(** [u.User.Username()] on a possibly nil [*Userinfo]. *)
Definition Username (ui : option Userinfo) : string :=
  match ui with Some i => username i | None => "" end.

End String.

End Url.

(** ** Package [providers]: the Okta provider *)

Module Providers.
Import Http Url.

(** *** What the provider is given: library routines and the outside world *)

#[local] Set Warnings "-register-all".

(** A decoded JSON text.  An object keeps its members in the order of the
    text, duplicates included.  A number is an integer literal, with its
    value, or a literal with a fraction or an exponent. *)
Inductive json : Type :=
  | JNull
  | JBool (b : bool)
  | JInt (z : Z)
  | JFloat (lit : string)
  | JString (s : string)
  | JArray (elems : list json)
  | JObject (members : list (string * json)).

(** Routines of the Go standard library that the provider calls and that
    are taken as given. *)
Class Lib : Type := {
  lib_escaping :: Escaping;
  (** [url.Parse] *)
  url_Parse : string → URL + error;
  (** [url.Values.Encode] of the pairs added, in the order of the [Add]s *)
  Values_Encode : list (string * string) → string;
  (** [strconv.Quote], the [%q] verb on a string *)
  strconv_Quote : string → string;
  (** the scanner of [encoding/json]: the value of a text, or its syntax
      error *)
  json_scan : string → json + error;
  (** the case-folding comparison of a struct field's name with a key *)
  equalFold : string → string → bool;
}.

(** [*http.Request], as far as the provider fills it. *)
Record Request : Type := mkRequest {
  Method : string;
  ReqURL : URL;
  ReqHeader : Header;
  ReqBody : string;
}.

(** What [http.DefaultClient.Do] and the [ioutil.ReadAll] of the response
    body come to: no response, or a status with the bytes read and the
    error of the read. *)
Inductive RoundTrip : Type :=
  | TransportError (e : error)
  | Response (StatusCode : Z) (body : string) (readErr : option error).

(** *** Data *)

(** Modelled from the spec: the declaration of [ProviderData], which the
    source embeds in [OktaProvider] and whose file is not among the
    sources.  Spec section 3 gives it a name, the client's id and secret,
    the scope and the three endpoint URLs; the URLs are pointers. *)
Record ProviderData : Type := mkProviderData {
  ProviderName : string;
  ClientID : string;
  ClientSecret : string;
  LoginURL : option URL;
  RedeemURL : option URL;
  ValidateURL : option URL;
  Scope : string;
}.

(** Modelled from the spec: the declaration of [SessionState], whose file
    is not among the sources.  Spec section 3 gives it the access token,
    the refresh token and the expiry. *)
Record SessionState : Type := mkSessionState {
  AccessToken : string;
  ExpiresOn : Time;
  RefreshToken : string;
}.

Global Instance ProviderData_eq_dec : EqDecision ProviderData.
Proof. solve_decision. Defined.
Global Instance SessionState_eq_dec : EqDecision SessionState.
Proof. solve_decision. Defined.

(** Lines handed to package [log], by call site. *)
Inductive LogEntry : Type :=
  | LogFailedBuilding (e : error)
  | LogFailedMaking (e : error)
  | LogRefreshed (s : SessionState) (origExpiration : Time).

(** The world the provider runs in: the clock, by the number of readings
    taken; the network; the requests sent and the lines logged so far. *)
Record World : Type := mkWorld {
  clock : nat → Time;
  reads : nat;
  network : Request → RoundTrip;
  sent : list Request;
  logged : list LogEntry;
}.

(** Computations of the provider. *)
Abbreviation M := (Go.M World).
Local Open Scope go_scope.

(** [time.Now()] *)
Definition time_Now : M Time :=
  λ w, (Returns (clock w (reads w)),
        mkWorld (clock w) (S (reads w)) (network w) (sent w) (logged w)).

(** [http.DefaultClient.Do(req)] followed by reading the body. *)
Definition http_Do (req : Request) : M RoundTrip :=
  λ w, (Returns (network w req),
        mkWorld (clock w) (reads w) (network w) (sent w ++ [req]) (logged w)).

(** [log.Printf] *)
Definition log_Printf (e : LogEntry) : M unit :=
  λ w, (Returns tt,
        mkWorld (clock w) (reads w) (network w) (sent w) (logged w ++ [e])).

(** *** [okta.go] *)

(** [NewOktaProvider(p)] *)
Definition NewOktaProvider (p : ProviderData) : ProviderData :=
  let p1 := mkProviderData "Okta" (ClientID p) (ClientSecret p)
              (LoginURL p) (RedeemURL p) (ValidateURL p) (Scope p) in
  if bool_decide (Scope p1 = "") then
    mkProviderData (ProviderName p1) (ClientID p1) (ClientSecret p1)
      (LoginURL p1) (RedeemURL p1) (ValidateURL p1)
      "openid profile email offline_access"
  else p1.

(** The literal [&url.URL{Scheme: "https", Host: domain, Path: path}]. *)
Definition okta_endpoint (domain path : string) : URL :=
  mkURL "https" "" None domain path "" false "" "".

Section WithLib.
Context `{Lib}.

(** The test [u == nil || u.String() == ""] of [SetOktaDomain]. *)
Definition url_unset (u : option URL) : bool :=
  match u with
  | None => true
  | Some u' => bool_decide (URL_String u' = "")
  end.

(** [p.SetOktaDomain(domain)] *)
Definition SetOktaDomain (domain : string) (p : ProviderData) : ProviderData :=
  let p1 :=
    if url_unset (LoginURL p) then
      mkProviderData (ProviderName p) (ClientID p) (ClientSecret p)
        (Some (okta_endpoint domain "/oauth2/v1/authorize"))
        (RedeemURL p) (ValidateURL p) (Scope p)
    else p in
  let p2 :=
    if url_unset (RedeemURL p1) then
      mkProviderData (ProviderName p1) (ClientID p1) (ClientSecret p1)
        (LoginURL p1) (Some (okta_endpoint domain "/oauth2/v1/token"))
        (ValidateURL p1) (Scope p1)
    else p1 in
  if url_unset (ValidateURL p2) then
    mkProviderData (ProviderName p2) (ClientID p2) (ClientSecret p2)
      (LoginURL p2) (RedeemURL p2)
      (Some (okta_endpoint domain "/oauth2/v1/userinfo")) (Scope p2)
  else p2.

(** [getOktaHeader(access_token)] *)
Definition getOktaHeader (access_token : string) : Header :=
  Set_ ∅ "Authorization" ("Bearer " +:+ access_token).

(** [u.String()] on a pointer: a nil receiver is dereferenced. *)
Definition String_of (u : option URL) : M string :=
  match u with
  | Some u' => ret (URL_String u')
  | None => panic nil_dereference
  end.

(** [http.NewRequest(method, urlStr, body)] for the methods the provider
    uses, which are valid: the request, or the error of [url.Parse]. *)
Definition http_NewRequest (method urlStr body : string) : Request + error :=
  match url_Parse urlStr with
  | inl u => inl (mkRequest method u ∅ body)
  | inr e => inr e
  end.

(** The anonymous struct [data] that the token response is decoded
    into. *)
Record tokenData : Type := mkTokenData {
  data_AccessToken : string;
  data_ExpiresIn : Z;
}.

Inductive tokenField : Type := fieldAccessToken | fieldExpiresIn.

(** The struct field an object key selects: the field whose JSON name is
    the key, or else the first field whose name folds to it. *)
Definition find_field (key : string) : option tokenField :=
  if bool_decide (key = "access_token") then Some fieldAccessToken
  else if bool_decide (key = "expires_in") then Some fieldExpiresIn
  else if equalFold "access_token" key then Some fieldAccessToken
  else if equalFold "expires_in" key then Some fieldExpiresIn
  else None.

(** How an [UnmarshalTypeError] names a JSON value. *)
Definition kind_of (v : json) : string :=
  match v with
  | JNull => "null"
  | JBool _ => "bool"
  | JInt _ | JFloat _ => "number"
  | JString _ => "string"
  | JArray _ => "array"
  | JObject _ => "object"
  end.

(** The decoder keeps the first type error and goes on. *)
Definition saveError (saved : option error) (e : error) : option error :=
  match saved with
  | None => Some e
  | Some _ => saved
  end.

(** One member of the object: [null] leaves the field as it is, a value of
    the field's kind is stored, any other value is a type error. *)
Definition decode_member (st : tokenData * option error) (m : string * json)
  : tokenData * option error :=
  match find_field m.1 with
  | None => st
  | Some fieldAccessToken =>
      match m.2 with
      | JNull => st
      | JString a => (mkTokenData a (data_ExpiresIn st.1), st.2)
      | v => (st.1, saveError st.2 (UnmarshalTypeError (kind_of v) "string"))
      end
  | Some fieldExpiresIn =>
      match m.2 with
      | JNull => st
      | JInt n =>
          if in_int64 n then (mkTokenData (data_AccessToken st.1) n, st.2)
          else (st.1, saveError st.2
                        (UnmarshalTypeError ("number " +:+ pretty n) "int64"))
      | JFloat lit =>
          (st.1, saveError st.2 (UnmarshalTypeError ("number " +:+ lit) "int64"))
      | v => (st.1, saveError st.2 (UnmarshalTypeError (kind_of v) "int64"))
      end
  end.

(** [json.Unmarshal(body, &data)] on the zero [data]: a syntax error stores
    nothing; [null] stores nothing and is no error; an object is decoded
    member by member; any other value is a type error. *)
Definition json_Unmarshal (body : string) : tokenData * option error :=
  match json_scan body with
  | inr e => (mkTokenData "" 0, Some e)
  | inl JNull => (mkTokenData "" 0, None)
  | inl (JObject members) => foldl decode_member (mkTokenData "" 0, None) members
  | inl v => (mkTokenData "" 0, Some (UnmarshalTypeError (kind_of v) "struct"))
  end.

(** [fmt.Errorf("got %d from %q %s", status, url, body)] *)
Definition status_error (status : Z) (url body : string) : error :=
  errorString ("got " +:+ pretty status +:+ " from " +:+ strconv_Quote url
               +:+ " " +:+ body).

(** [p.redeemRefreshToken(refreshToken)], with its named results [token],
    [expires] and [err]. *)
Definition redeemRefreshToken (p : ProviderData) (refreshToken : string)
  : M (string * Duration * option error) :=
  let params := [("client_id", ClientID p); ("client_secret", ClientSecret p);
                 ("refresh_token", refreshToken);
                 ("grant_type", "refresh_token")] in
  urlStr <- String_of (RedeemURL p) ;;
  match http_NewRequest "POST" urlStr (Values_Encode params) with
  | inr err => ret ("", 0, Some err)
  | inl req =>
      let req := mkRequest (Method req) (ReqURL req)
                   (Set_ (ReqHeader req) "Content-Type"
                      "application/x-www-form-urlencoded")
                   (ReqBody req) in
      resp <- http_Do req ;;
      match resp with
      | TransportError err => ret ("", 0, Some err)
      | Response _ _ (Some err) => ret ("", 0, Some err)
      | Response StatusCode body None =>
          if bool_decide (StatusCode ≠ 200) then
            urlStr' <- String_of (RedeemURL p) ;;
            ret ("", 0, Some (status_error StatusCode urlStr' body))
          else
            match json_Unmarshal body with
            | (_, Some err) => ret ("", 0, Some err)
            | (data, None) =>
                ret (data_AccessToken data, seconds (data_ExpiresIn data), None)
            end
      end
  end.

(** [p.RefreshSessionIfNeeded(s)]: the results, and the session [s] points
    to after the call. *)
Definition RefreshSessionIfNeeded (p : ProviderData) (s : option SessionState)
  : M (bool * option error * option SessionState) :=
  match s with
  | None => ret (false, None, s)
  | Some st =>
      now <- time_Now ;;
      if After (ExpiresOn st) now || bool_decide (RefreshToken st = "") then
        ret (false, None, s)
      else
        r <- redeemRefreshToken p (RefreshToken st) ;;
        match r with
        | (_, _, Some err) => ret (false, Some err, s)
        | (newToken, duration, None) =>
            let origExpiration := ExpiresOn st in
            now' <- time_Now ;;
            let st' := mkSessionState newToken
                         (Truncate (Add now' duration) Second)
                         (RefreshToken st) in
            _ <- log_Printf (LogRefreshed st' origExpiration) ;;
            ret (true, None, Some st')
        end
  end.

(** Modelled from the spec: [validateToken], a function of the package
    whose file is not among the sources.  Spec sections 4.1, 4.4 and 8: one
    GET to the validation endpoint with the given header; false when the
    request cannot be built or sent, when the status is not the success
    status 200, or when the body cannot be read or is not JSON; true
    otherwise; never an error. *)
Definition validateToken (p : ProviderData) (access_token : string)
    (header : Header) : M bool :=
  match ValidateURL p with
  | None => ret false
  | Some u =>
      match http_NewRequest "GET" (URL_String u) "" with
      | inr _ => ret false
      | inl req =>
          resp <- http_Do (mkRequest (Method req) (ReqURL req) header (ReqBody req)) ;;
          match resp with
          | TransportError _ => ret false
          | Response _ _ (Some _) => ret false
          | Response StatusCode body None =>
              ret (bool_decide (StatusCode = 200)
                   && match json_scan body with inl _ => true | inr _ => false end)
          end
      end
  end.

(** Modelled from the spec: [api.Request], a function of the repository's
    package [api], which is not among the sources.  Spec sections 4.1 and
    7: the request is sent; a transport failure, a status other than 200
    (the error holds the status code and the raw body) and a body that is
    not JSON are errors; otherwise the decoded body is returned. *)
Definition api_Request (req : Request) : M (json + error) :=
  resp <- http_Do req ;;
  match resp with
  | TransportError err => ret (inr err)
  | Response _ _ (Some err) => ret (inr err)
  | Response StatusCode body None =>
      if bool_decide (StatusCode ≠ 200) then
        ret (inr (errorString ("got " +:+ pretty StatusCode +:+ " " +:+ body)))
      else ret (json_scan body)
  end.

(** The map a decoded object is: of two members with one key the later
    one stays. *)
Fixpoint map_index (members : list (string * json)) (key : string) : option json :=
  match members with
  | [] => None
  | (k, v) :: rest =>
      match map_index rest key with
      | Some v' => Some v'
      | None => if bool_decide (k = key) then Some v else None
      end
  end.

(** [j.Get(key)] of go-simplejson: the value under the key when [j] is an
    object that has it, and a [Json] holding [nil] otherwise. *)
Definition Json_Get (j : json) (key : string) : json :=
  match j with
  | JObject members => default JNull (map_index members key)
  | _ => JNull
  end.

(** [j.String()] of go-simplejson: a type assertion to [string]. *)
Definition Json_String (j : json) : string * option error :=
  match j with
  | JString a => (a, None)
  | _ => ("", Some (errorString "type assertion to string failed"))
  end.

(** [s.AccessToken] on a pointer. *)
Definition AccessToken_of (s : option SessionState) : M string :=
  match s with
  | Some st => ret (AccessToken st)
  | None => panic nil_dereference
  end.

(** [p.GetEmailAddress(s)] *)
Definition GetEmailAddress (p : ProviderData) (s : option SessionState)
  : M (string * option error) :=
  urlStr <- String_of (ValidateURL p) ;;
  match http_NewRequest "GET" urlStr "" with
  | inr err =>
      _ <- log_Printf (LogFailedBuilding err) ;;
      ret ("", Some err)
  | inl req =>
      token <- AccessToken_of s ;;
      let req := mkRequest (Method req) (ReqURL req) (getOktaHeader token)
                   (ReqBody req) in
      r <- api_Request req ;;
      match r with
      | inr err =>
          _ <- log_Printf (LogFailedMaking err) ;;
          ret ("", Some err)
      | inl json => ret (Json_String (Json_Get json "email"))
      end
  end.

(** [p.GetUserName(s)] *)
Definition GetUserName (p : ProviderData) (s : option SessionState)
  : M (string * option error) :=
  urlStr <- String_of (ValidateURL p) ;;
  match http_NewRequest "GET" urlStr "" with
  | inr err =>
      _ <- log_Printf (LogFailedBuilding err) ;;
      ret ("", Some err)
  | inl req =>
      token <- AccessToken_of s ;;
      let req := mkRequest (Method req) (ReqURL req) (getOktaHeader token)
                   (ReqBody req) in
      r <- api_Request req ;;
      match r with
      | inr err =>
          _ <- log_Printf (LogFailedMaking err) ;;
          ret ("", Some err)
      | inl json => ret (Json_String (Json_Get json "preferred_username"))
      end
  end.

(** [p.ValidateSessionState(s)] *)
Definition ValidateSessionState (p : ProviderData) (s : option SessionState)
  : M bool :=
  token <- AccessToken_of s ;;
  validateToken p token (getOktaHeader token).

End WithLib.

End Providers.

(** ** Package [main]: [logging_handler.go] *)

Module Logging.
Import Http Url.
Local Open Scope go_scope.

Definition defaultRequestLoggingFormat : string :=
  "{{.Client}} - {{.Username}} [{{.Timestamp}}] {{.Host}} {{.RequestMethod}} {{.Upstream}} {{.RequestURI}} {{.Protocol}} {{.UserAgent}} {{.StatusCode}} {{.ResponseSize}} {{.RequestDuration}}".

(** The [http.ResponseWriter] the server hands to the handler.  By the
    interface's contract the header map is sent with the status line, at the
    first [WriteHeader] or [Write]; what is changed in the map afterwards
    does not reach the client.  [wrote] is the status and the headers that
    were sent, [written] the body so far. *)
Record ResponseWriter : Type := mkResponseWriter {
  header : Header;
  wrote : option (Z * Header);
  written : string;
}.

(** [w.WriteHeader(s)] of the underlying writer: a second call is
    ignored.  The writer of the model takes [s] as the status of the
    response whatever it is; an HTTP server does so for the final status
    codes, from 200 to 999. *)
Definition w_WriteHeader (w : ResponseWriter) (s : Z) : ResponseWriter :=
  match wrote w with
  | Some _ => w
  | None => mkResponseWriter (header w) (Some (s, header w)) (written w)
  end.

(** [w.Write(b)] of the underlying writer: an implicit
    [WriteHeader(http.StatusOK)] when none was done, then the bytes; it
    returns the number of bytes and no error.  The writer of the model
    takes every write in full; what the logger does over a writer that
    does not is stated with that writer's [Write] as a parameter. *)
Definition w_Write (w : ResponseWriter) (b : string) : ResponseWriter * (Z * option error) :=
  let w1 := w_WriteHeader w 200 in
  (mkResponseWriter (header w1) (wrote w1) (written w1 +:+ b),
   (Z.of_nat (String.length b), None)).

(** What the server does when the outermost handler has returned: a
    response that was never written is sent with status 200 and the header
    map as it stands. *)
Definition finishRequest (w : ResponseWriter) : ResponseWriter :=
  w_WriteHeader w 200.

(** [responseLogger] *)
Record responseLogger : Type := mkResponseLogger {
  w : ResponseWriter;
  status : Z;
  size : Z;
  upstream : string;
  authInfo : string;
}.

(** [l.Header()] is the underlying writer's map. *)
Definition Header_of (l : responseLogger) : Header := header (w l).

(** A change of the map [l.Header()] returns, as the handler or the logger
    makes it in place. *)
Definition with_header (l : responseLogger) (h : Header) : responseLogger :=
  mkResponseLogger (mkResponseWriter h (wrote (w l)) (written (w l)))
    (status l) (size l) (upstream l) (authInfo l).

(** [l.ExtractGAPMetadata()] *)
Definition ExtractGAPMetadata (l : responseLogger) : responseLogger :=
  let upstream_ := Get (Header_of l) "GAP-Upstream-Address" in
  let l1 :=
    if bool_decide (upstream_ ≠ "") then
      with_header
        (mkResponseLogger (w l) (status l) (size l) upstream_ (authInfo l))
        (Del (Header_of l) "GAP-Upstream-Address")
    else l in
  let authInfo_ := Get (Header_of l1) "GAP-Auth" in
  if bool_decide (authInfo_ ≠ "") then
    with_header
      (mkResponseLogger (w l1) (status l1) (size l1) (upstream l1) authInfo_)
      (Del (Header_of l1) "GAP-Auth")
  else l1.

(** [l.Write(b)] *)
Definition Write (l : responseLogger) (b : string) : responseLogger * (Z * option error) :=
  let l1 :=
    if bool_decide (status l = 0) then
      mkResponseLogger (w l) 200 (size l) (upstream l) (authInfo l)
    else l in
  let l2 := ExtractGAPMetadata l1 in
  let '(w', (size_, err)) := w_Write (w l2) b in
  (mkResponseLogger w' (status l2) (wrap64 (size l2 + size_)) (upstream l2)
     (authInfo l2),
   (size_, err)).

(** [l.WriteHeader(s)] *)
Definition WriteHeader (l : responseLogger) (s : Z) : responseLogger :=
  let l1 := ExtractGAPMetadata l in
  mkResponseLogger (w_WriteHeader (w l1) s) s (size l1) (upstream l1) (authInfo l1).

(** [l.Status()] and [l.Size()] *)
Definition Status (l : responseLogger) : Z := status l.
Definition Size (l : responseLogger) : Z := size l.

(** [logMessageData] *)
Record logMessageData : Type := mkLogMessageData {
  Client : string;
  Host : string;
  Protocol : string;
  RequestDuration : string;
  RequestMethod : string;
  RequestURI : string;
  RequestBody : string;
  ResponseSize : string;
  StatusCode : string;
  Timestamp : string;
  Upstream : string;
  UserAgent : string;
  Username : string;
}.

(** [*http.Request] as the server delivers it, as far as the handler reads
    it.  [ReqURL] is never nil on a served request.  A body is the bytes a
    read to the end delivers and the error the read ends with. *)
Record Request : Type := mkRequest {
  ReqMethod : string;
  ReqURL : URL;
  ReqProto : string;
  ReqHeader : Header;
  ReqBody : option (string * option error);
  ReqHost : string;
  RemoteAddr : string;
}.

(** Routines of the Go standard library that the handler calls and that
    are taken as given. *)
Class Lib : Type := {
  (** [net.SplitHostPort] *)
  SplitHostPort : string → string * string + error;
  (** [u.RequestURI()] *)
  URL_RequestURI : URL → string;
  (** [t.Format(layout)] *)
  Time_Format : Time → string → string;
  (** [fmt.Sprintf("%q", s)] *)
  Sprintf_q : string → string;
  (** [fmt.Sprintf("%0.3f", float64(d) / float64(time.Second))] *)
  Sprintf_seconds : Duration → string;
  (** a parsed [*template.Template] *)
  Template : Type;
  (** [template.New(name).Parse(text)] *)
  template_Parse : string → string → Template + error;
  (** what [t.Execute(out, data)] writes to [out] *)
  template_Execute : Template → logMessageData → string;
}.

(** The calls a handler makes on the [http.ResponseWriter] it is given. *)
Inductive call : Type :=
  | CallHeader (update : Header → Header)
  | CallWrite (b : string)
  | CallWriteHeader (s : Z).

(** An [http.Handler], by what one run of it does: the calls on the writer,
    in order, and the request as it leaves it. *)
Definition Handler : Type := Request → list call * Request.

(** The world the handler runs in: the clock, by the number of readings
    taken, and what was written to the log's [io.Writer]. *)
Record World : Type := mkWorld {
  clock : nat → Time;
  reads : nat;
  out : string;
}.

Abbreviation M := (Go.M World).

(** [time.Now()] *)
Definition time_Now : M Time :=
  λ s, (Returns (clock s (reads s)), mkWorld (clock s) (S (reads s)) (out s)).

(** [h.writer.Write(b)] *)
Definition writer_Write (b : string) : M unit :=
  λ s, (Returns tt, mkWorld (clock s) (reads s) (out s +:+ b)).

(** [strings.Trim(s, "\n")] and [strings.Replace(s, "\n", " ", -1)] *)
Definition newline : ascii := "010"%char.

Fixpoint trim_left (s : string) : string :=
  match s with
  | String c rest => if bool_decide (c = newline) then trim_left rest else s
  | EmptyString => s
  end.

Definition Trim_newlines (s : string) : string :=
  String.rev (trim_left (String.rev (trim_left s))).

Fixpoint Replace_newlines (s : string) : string :=
  match s with
  | String c rest =>
      String (if bool_decide (c = newline) then " "%char else c) (Replace_newlines rest)
  | EmptyString => EmptyString
  end.

(** One call of the handler on the logger. *)
Definition serve_call (l : responseLogger) (c : call) : responseLogger :=
  match c with
  | CallHeader update => with_header l (update (Header_of l))
  | CallWrite b => (Write l b).1
  | CallWriteHeader s => WriteHeader l s
  end.

Section WithLib.
Context `{Lib}.

(** [loggingHandler] *)
Record loggingHandler : Type := mkLoggingHandler {
  handler : Handler;
  enabled : bool;
  bodyEnabled : bool;
  logTemplate : Template;
}.

(** [LoggingHandler(out, h, v, rbl, requestLoggingTpl)]: [template.Must]
    panics on a template that does not parse.  The writer [out] is the
    world's. *)
Definition LoggingHandler (h : Handler) (v rbl : bool) (requestLoggingTpl : string)
  : outcome loggingHandler :=
  match template_Parse "request-log" requestLoggingTpl with
  | inl t => Returns (mkLoggingHandler h v rbl t)
  | inr err => Panics (Error err)
  end.

(** The values [writeLogLine] hands to the template, given the reading
    [now] of the clock it takes. *)
Definition logMessage (username upstream : string) (req : Request)
    (body : string) (url : URL) (ts : Time) (status size : Z) (now : Time)
  : logMessageData :=
  let username := if bool_decide (username = "") then "-" else username in
  let upstream := if bool_decide (upstream = "") then "-" else upstream in
  let username :=
    if bool_decide (User url ≠ None) && bool_decide (username = "-") then
      let name := Url.Username (User url) in
      if bool_decide (name ≠ "") then name else username
    else username in
  let client := Get (ReqHeader req) "X-Real-IP" in
  let client := if bool_decide (client = "") then RemoteAddr req else client in
  let client :=
    match SplitHostPort client with
    | inl (c, _) => c
    | inr _ => client
    end in
  let body :=
    if (500 <? String.length body)%nat then String.substring 0 500 body else body in
  let duration := Sub now ts in
  {| Client := client;
     Host := ReqHost req;
     Protocol := ReqProto req;
     RequestDuration := Sprintf_seconds duration;
     RequestMethod := ReqMethod req;
     RequestURI := Sprintf_q (URL_RequestURI url);
     RequestBody := body;
     ResponseSize := pretty size;
     StatusCode := pretty status;
     Timestamp := Time_Format ts "02/Jan/2006:15:04:05 -0700";
     Upstream := upstream;
     UserAgent := Sprintf_q (Get (ReqHeader req) "User-Agent");
     Username := username |}.

(** [h.writeLogLine(username, upstream, req, body, url, ts, status, size)] *)
Definition writeLogLine (h : loggingHandler) (username upstream : string)
    (req : Request) (body : string) (url : URL) (ts : Time) (status size : Z)
  : M unit :=
  now <- time_Now ;;
  _ <- writer_Write
         (template_Execute (logTemplate h)
            (logMessage username upstream req body url ts status size now)) ;;
  writer_Write (String newline EmptyString).

(** The request body as [ServeHTTP] logs it, and the request it passes
    on: a body read without error is put back. *)
Definition read_body (h : loggingHandler) (req : Request) : string * Request :=
  if enabled h && bodyEnabled h then
    match ReqBody req with
    | Some (bodyBytes, None) =>
        (Replace_newlines (Trim_newlines bodyBytes),
         mkRequest (ReqMethod req) (ReqURL req) (ReqProto req) (ReqHeader req)
           (Some (bodyBytes, None)) (ReqHost req) (RemoteAddr req))
    | Some (_, Some err) =>
        ("", mkRequest (ReqMethod req) (ReqURL req) (ReqProto req) (ReqHeader req)
               (Some ("", Some err)) (ReqHost req) (RemoteAddr req))
    | None => ("", req)
    end
  else ("", req).

(** The logger when the wrapped handler has returned. *)
Definition serve (calls : list call) (w0 : ResponseWriter) : responseLogger :=
  foldl serve_call (mkResponseLogger w0 0 0 "" "") calls.

(** [h.ServeHTTP(w, req)]: the underlying writer when it returns. *)
Definition ServeHTTP (h : loggingHandler) (w0 : ResponseWriter) (req : Request)
  : M ResponseWriter :=
  t <- time_Now ;;
  let url := ReqURL req in
  let '(body, req1) := read_body h req in
  let '(calls, req2) := handler h req1 in
  let logger := serve calls w0 in
  if negb (enabled h) then ret (w logger)
  else
    _ <- writeLogLine h (authInfo logger) (upstream logger) req2 body url t
           (Status logger) (Size logger) ;;
    ret (w logger).

End WithLib.

End Logging.

(** ** Concrete libraries and inputs for the examples

    The theorems below hold for every library instance.  To run the model
    on concrete inputs the examples use the instances of this section: the
    provider's library routines restricted to the inputs that occur in the
    examples, on which they agree with the Go library, and for the logging
    handler a library whose formatting of instants and durations is a
    stand-in on which no example depends. *)

Module Samples.
Import Http Url.

(** The double quote, and a quoted string. *)
Definition dq : string := String "034"%char EmptyString.
Definition quoted (s : string) : string := dq +:+ s +:+ dq.

(** Lookup in a table of results. *)
Fixpoint table_find {A} (t : list (string * A)) (key : string) : option A :=
  match t with
  | [] => None
  | (k, a) :: rest => if bool_decide (k = key) then Some a else table_find rest key
  end.

(** No escaping: right for host names and paths of letters, digits, dots,
    dashes and slashes. *)
Definition plain_escaping : Escaping :=
  {| escape := λ _ s, s; EscapedPath := λ path _, path |}.

Definition domain : string := "dev-1.okta.com".

Definition parsed_urls : list (string * URL) :=
  [("https://dev-1.okta.com/oauth2/v1/authorize",
    Providers.okta_endpoint domain "/oauth2/v1/authorize");
   ("https://dev-1.okta.com/oauth2/v1/token",
    Providers.okta_endpoint domain "/oauth2/v1/token");
   ("https://dev-1.okta.com/oauth2/v1/userinfo",
    Providers.okta_endpoint domain "/oauth2/v1/userinfo")].

(** JSON texts of the examples and their values. *)
Definition body_new123 : string :=
  "{" +:+ quoted "access_token" +:+ ":" +:+ quoted "new123" +:+ ","
  +:+ quoted "expires_in" +:+ ":3600}".
Definition body_far_future : string :=
  "{" +:+ quoted "access_token" +:+ ":" +:+ quoted "new123" +:+ ","
  +:+ quoted "expires_in" +:+ ":9223372037}".
Definition body_empty_object : string := "{}".
Definition body_expires_soon : string :=
  "{" +:+ quoted "expires_in" +:+ ":" +:+ quoted "soon" +:+ "}".
Definition body_email : string :=
  "{" +:+ quoted "email" +:+ ":" +:+ quoted "a@b.com" +:+ "}".

Definition scanned_texts : list (string * Providers.json) :=
  [(body_new123,
    Providers.JObject [("access_token", Providers.JString "new123");
                       ("expires_in", Providers.JInt 3600)]);
   (body_far_future,
    Providers.JObject [("access_token", Providers.JString "new123");
                       ("expires_in", Providers.JInt 9223372037)]);
   (body_empty_object, Providers.JObject []);
   (body_expires_soon, Providers.JObject [("expires_in", Providers.JString "soon")]);
   (body_email, Providers.JObject [("email", Providers.JString "a@b.com")])].

(** Comparison of two strings up to the case of ASCII letters. *)
Fixpoint ascii_fold_eq (s t : string) : bool :=
  match s, t with
  | EmptyString, EmptyString => true
  | String a s', String b t' =>
      bool_decide (Http.to_lower a = Http.to_lower b) && ascii_fold_eq s' t'
  | _, _ => false
  end.

(** The pairs ordered by key, as [Encode] writes them. *)
Fixpoint insert_by_key (kv : string * string) (l : list (string * string))
  : list (string * string) :=
  match l with
  | [] => [kv]
  | kv' :: rest =>
      if String.ltb kv.1 kv'.1 then kv :: l else kv' :: insert_by_key kv rest
  end.
Definition sort_by_key (l : list (string * string)) : list (string * string) :=
  foldr insert_by_key [] (reverse l).

Definition providers_lib : Providers.Lib :=
  {| Providers.lib_escaping := plain_escaping;
     Providers.url_Parse := λ s,
       match table_find parsed_urls s with
       | Some u => inl u
       | None => inr (errorString ("parse " +:+ s))
       end;
     Providers.Values_Encode := λ params,
       foldr (λ kv acc, kv.1 +:+ "=" +:+ kv.2
                        +:+ (if bool_decide (acc = "") then "" else "&" +:+ acc))
             "" (sort_by_key params);
     Providers.strconv_Quote := quoted;
     Providers.json_scan := λ text,
       match table_find scanned_texts text with
       | Some v => inl v
       | None => inr (errorString "invalid character")
       end;
     Providers.equalFold := ascii_fold_eq |}.

(** An Okta provider with its endpoints defaulted from [domain]. *)
Definition okta : Providers.ProviderData :=
  @Providers.SetOktaDomain providers_lib domain
    (Providers.NewOktaProvider
       (Providers.mkProviderData "" "client" "secret" None None None "")).

(** A session that expires at the instant T = 1000.25 s. *)
Definition T0 : Time := 1000250000000.
Definition session : Providers.SessionState :=
  Providers.mkSessionState "old" T0 "refresh-1".

(** A world whose clock stands at [now] and whose token endpoint answers
    every request with [answer]. *)
Definition world (now : Time) (answer : Providers.RoundTrip) : Providers.World :=
  Providers.mkWorld (λ _, now) 0 (λ _, answer) [] [].

(** The library of the logging handler.  The template of the examples is
    the default format, executed by writing the fields in its order;
    addresses are split at their last colon; quoting puts a string
    between double quotes; the request URI of a URL is its path.  Instants
    and durations are written as their numbers of nanoseconds, which is not
    Go's formatting. *)
Fixpoint split_last_colon (s : string) : option (string * string) :=
  match s with
  | EmptyString => None
  | String c rest =>
      match split_last_colon rest with
      | Some (host, port) => Some (String c host, port)
      | None => if bool_decide (c = ":"%char) then Some ("", rest) else None
      end
  end.

Definition execute_default (d : Logging.logMessageData) : string :=
  Logging.Client d +:+ " - " +:+ Logging.Username d +:+ " ["
  +:+ Logging.Timestamp d +:+ "] " +:+ Logging.Host d +:+ " "
  +:+ Logging.RequestMethod d +:+ " " +:+ Logging.Upstream d +:+ " "
  +:+ Logging.RequestURI d +:+ " " +:+ Logging.Protocol d +:+ " "
  +:+ Logging.UserAgent d +:+ " " +:+ Logging.StatusCode d +:+ " "
  +:+ Logging.ResponseSize d +:+ " " +:+ Logging.RequestDuration d.

Definition logging_lib : Logging.Lib :=
  {| Logging.SplitHostPort := λ s,
       match split_last_colon s with
       | Some hp => inl hp
       | None => inr (errorString ("address " +:+ s +:+ ": missing port in address"))
       end;
     Logging.URL_RequestURI := λ u, Path u;
     Logging.Time_Format := λ t _, pretty t;
     Logging.Sprintf_q := quoted;
     Logging.Sprintf_seconds := λ d, pretty d;
     Logging.Template := unit;
     Logging.template_Parse := λ _ text,
       if bool_decide (text = Logging.defaultRequestLoggingFormat) then inl tt
       else inr (errorString "template: unsupported");
     Logging.template_Execute := λ _, execute_default |}.

(** A request [GET /secret] from 10.0.0.7, with or without a user name in
    its URL. *)
Definition request (user : option Userinfo) : Logging.Request :=
  Logging.mkRequest "GET" (mkURL "" "" user "" "/secret" "" false "" "")
    "HTTP/1.1" ∅ None "example.org" "10.0.0.7:4711".

Definition bob : Userinfo := mkUserinfo "bob" "" false.

(** A handler that makes the given calls and leaves the request alone. *)
Definition calling (calls : list Logging.call) : Logging.Handler :=
  λ req, (calls, req).

(** The writer of a fresh response, and a world with the clock at 5 s. *)
Definition fresh : Logging.ResponseWriter := Logging.mkResponseWriter ∅ None "".
Definition log_world : Logging.World := Logging.mkWorld (λ _, 5000000000) 0 "".

End Samples.

(** ** Properties of the Okta provider *)

Module OktaFacts.
Import Http Url Providers.
Local Open Scope go_scope.

(** *** Strings *)

Lemma append_cons (c : ascii) (s t : string) : String c s +:+ t = String c (s +:+ t).
Proof. reflexivity. Qed.

Lemma append_nil_l (s : string) : "" +:+ s = s.
Proof. reflexivity. Qed.

Lemma append_nil_r (s : string) : s +:+ "" = s.
Proof. induction s as [|c s IH]; [done|]. by rewrite append_cons, IH. Qed.

Lemma append_assoc (s t u : string) : (s +:+ t) +:+ u = s +:+ t +:+ u.
Proof. induction s as [|c s IH]; [done|]. by rewrite !append_cons, IH. Qed.

Lemma append_nonempty (s t : string) : s ≠ "" → s +:+ t ≠ "".
Proof. by destruct s. Qed.

(** [sub] occurs in [s]. *)
Definition contains (sub s : string) : Prop :=
  ∃ pre post, s = pre +:+ sub +:+ post.

Lemma contains_here (pre sub post : string) : contains sub (pre +:+ sub +:+ post).
Proof. by exists pre, post. Qed.

Lemma contains_suffix (pre sub : string) : contains sub (pre +:+ sub).
Proof. exists pre, "". by rewrite append_nil_r. Qed.

Lemma contains_append_r (pre sub s : string) : contains sub s → contains sub (pre +:+ s).
Proof.
  intros (a & b & ->). exists (pre +:+ a), b. by rewrite append_assoc.
Qed.

Section WithLib.
Context `{Lib}.

(** *** Endpoint defaulting *)

(** A defaulted endpoint renders with its scheme in front, whatever the
    domain is. *)
Lemma okta_endpoint_String (domain path : string) :
  URL_String (okta_endpoint domain path)
  = "https:"
    +:+ ((if bool_decide (domain ≠ "" ∨ path ≠ "") then "//" else "")
    +:+ (if bool_decide (domain ≠ "") then escape encodeHost domain else "")
    +:+ (if bool_decide (EscapedPath path "" ≠ "")
            && negb (starts_with_slash (EscapedPath path ""))
            && bool_decide (domain ≠ "") then "/" else "")
    +:+ EscapedPath path "").
Proof.
  unfold URL_String, okta_endpoint. cbn [Scheme Opaque User Host Path RawPath
    ForceQuery RawQuery Fragment].
  assert (E1 : bool_decide ("https" = "") = false) by done.
  assert (E2 : bool_decide ("" ≠ "") = false) by done.
  rewrite E1, !E2.
  match goal with
  | |- context [@bool_decide (domain ≠ "" ∨ path ≠ "" ∨ ?P) ?d] =>
      rewrite (@bool_decide_ext _ (domain ≠ "" ∨ path ≠ "") d _) by intuition congruence
  end.
  rewrite !(bool_decide_eq_true_2 ("https" ≠ "" ∨ _)) by (by left).
  rewrite (bool_decide_eq_false_2 (_ +:+ _ = "")) by (by apply append_nonempty).
  cbn [orb andb]. rewrite !append_nil_r, !append_nil_l.
  change ("https" +:+ ":") with "https:". by rewrite !append_assoc.
Qed.

(** With a domain and a path that escaping leaves as they are, the
    endpoint renders as [https://<domain><path>]. *)
Lemma okta_endpoint_text (domain path : string) :
  starts_with_slash path = true →
  escape encodeHost domain = domain → EscapedPath path "" = path →
  URL_String (okta_endpoint domain path) = "https://" +:+ domain +:+ path.
Proof.
  intros Hslash Hhost Hpath. rewrite okta_endpoint_String, Hhost, Hpath, Hslash.
  assert (path ≠ "") as Hne by (by destruct path).
  rewrite (bool_decide_eq_true_2 (_ ∨ _)) by (by right).
  rewrite andb_false_r. cbn [andb]. rewrite append_nil_l.
  assert ((if bool_decide (domain ≠ "") then domain else "") = domain) as ->.
  { case_bool_decide as Hd; [done|]. destruct domain; [done|]. by destruct Hd. }
  change "https://" with ("https:" +:+ "//"). by rewrite !append_assoc.
Qed.

Lemma okta_endpoint_set (domain path : string) :
  url_unset (Some (okta_endpoint domain path)) = false.
Proof.
  unfold url_unset. rewrite okta_endpoint_String.
  by apply bool_decide_eq_false_2.
Qed.

(** A URL is kept exactly when it is set. *)
Definition defaulted (domain path : string) (u : option URL) : option URL :=
  if url_unset u then Some (okta_endpoint domain path) else u.

Lemma defaulted_set (domain path : string) (u : option URL) :
  url_unset (defaulted domain path u) = false.
Proof.
  unfold defaulted. destruct (url_unset u) eqn:E; [apply okta_endpoint_set | done].
Qed.

Lemma SetOktaDomain_fields (domain : string) (p : ProviderData) :
  SetOktaDomain domain p
  = mkProviderData (ProviderName p) (ClientID p) (ClientSecret p)
      (defaulted domain "/oauth2/v1/authorize" (LoginURL p))
      (defaulted domain "/oauth2/v1/token" (RedeemURL p))
      (defaulted domain "/oauth2/v1/userinfo" (ValidateURL p))
      (Scope p).
Proof.
  unfold SetOktaDomain, defaulted. destruct p as [n i c l r v sc]. cbn.
  destruct (url_unset l); cbn; destruct (url_unset r); cbn;
    destruct (url_unset v); reflexivity.
Qed.

(** C6.  [SetOktaDomain] sets each of the three endpoint URLs to the URL
    with scheme [https], host [domain] and path
    [/oauth2/v1/authorize], [/oauth2/v1/token] or [/oauth2/v1/userinfo]
    (every other part empty) exactly when that URL is nil or renders as the
    empty string, and keeps a URL that is set; it touches no other field;
    a second call with the same domain changes nothing; and the URL it
    sets renders as [https://<domain>/oauth2/v1/...] whenever escaping
    leaves the domain and the path as they are. *)
Theorem SetOktaDomain_set_if_empty (domain : string) (p : ProviderData) :
  LoginURL (SetOktaDomain domain p)
  = match LoginURL p with
    | None => Some (mkURL "https" "" None domain "/oauth2/v1/authorize" "" false "" "")
    | Some u =>
        if bool_decide (URL_String u = "")
        then Some (mkURL "https" "" None domain "/oauth2/v1/authorize" "" false "" "")
        else Some u
    end
  ∧ RedeemURL (SetOktaDomain domain p)
    = match RedeemURL p with
      | None => Some (mkURL "https" "" None domain "/oauth2/v1/token" "" false "" "")
      | Some u =>
          if bool_decide (URL_String u = "")
          then Some (mkURL "https" "" None domain "/oauth2/v1/token" "" false "" "")
          else Some u
      end
  ∧ ValidateURL (SetOktaDomain domain p)
    = match ValidateURL p with
      | None => Some (mkURL "https" "" None domain "/oauth2/v1/userinfo" "" false "" "")
      | Some u =>
          if bool_decide (URL_String u = "")
          then Some (mkURL "https" "" None domain "/oauth2/v1/userinfo" "" false "" "")
          else Some u
      end
  ∧ (ProviderName (SetOktaDomain domain p), ClientID (SetOktaDomain domain p),
     ClientSecret (SetOktaDomain domain p), Scope (SetOktaDomain domain p))
    = (ProviderName p, ClientID p, ClientSecret p, Scope p)
  ∧ SetOktaDomain domain (SetOktaDomain domain p) = SetOktaDomain domain p
  ∧ (escape encodeHost domain = domain →
     Forall (λ path,
               EscapedPath path "" = path →
               URL_String (mkURL "https" "" None domain path "" false "" "")
               = "https://" +:+ domain +:+ path)
       ["/oauth2/v1/authorize"; "/oauth2/v1/token"; "/oauth2/v1/userinfo"]).
Proof.
  rewrite !SetOktaDomain_fields. cbn [LoginURL RedeemURL ValidateURL
    ProviderName ClientID ClientSecret Scope].
  split; [by destruct (LoginURL p)|].
  split; [by destruct (RedeemURL p)|].
  split; [by destruct (ValidateURL p)|].
  split; [reflexivity|].
  split.
  - f_equal; unfold defaulted at 1; by rewrite defaulted_set.
  - intros Hhost.
    repeat (apply Forall_cons_2;
            [intros Hpath; by apply okta_endpoint_text|]).
    apply Forall_nil_2.
Qed.

(** *** Token refresh *)

(** The reading of the clock that the next [time.Now()] delivers. *)
Definition now (w : World) : Time := clock w (reads w).

(** The world after one reading of the clock, and after sending [req]. *)
Definition ticked (w : World) : World :=
  mkWorld (clock w) (S (reads w)) (network w) (sent w) (logged w).
Definition sending (req : Request) (w : World) : World :=
  mkWorld (clock w) (reads w) (network w) (sent w ++ [req]) (logged w).
Definition logging (e : LogEntry) (w : World) : World :=
  mkWorld (clock w) (reads w) (network w) (sent w) (logged w ++ [e]).

(** The request [redeemRefreshToken] sends for a refresh token, when the
    token URL is set and parses. *)
Definition token_request (p : ProviderData) (refreshToken : string) : option Request :=
  match RedeemURL p with
  | None => None
  | Some u =>
      match url_Parse (URL_String u) with
      | inr _ => None
      | inl u' =>
          Some (mkRequest "POST" u'
                  (Set_ ∅ "Content-Type" "application/x-www-form-urlencoded")
                  (Values_Encode
                     [("client_id", ClientID p); ("client_secret", ClientSecret p);
                      ("refresh_token", refreshToken);
                      ("grant_type", "refresh_token")]))
      end
  end.

(** The session is due for a refresh: it has a refresh token and its
    expiry is not after the clock's reading. *)
Definition refresh_due (st : SessionState) (w : World) : Prop :=
  ExpiresOn st ≤ now w ∧ RefreshToken st ≠ "".

Lemma RefreshSessionIfNeeded_skip (p : ProviderData) (st : SessionState) (w : World) :
  After (ExpiresOn st) (now w) || bool_decide (RefreshToken st = "") = true →
  RefreshSessionIfNeeded p (Some st) w = (Returns (false, None, Some st), ticked w).
Proof.
  intros E. unfold RefreshSessionIfNeeded, bind, time_Now. fold (now w).
  by rewrite E.
Qed.

Lemma RefreshSessionIfNeeded_due (p : ProviderData) (st : SessionState) (w : World) :
  refresh_due st w →
  RefreshSessionIfNeeded p (Some st) w
  = match redeemRefreshToken p (RefreshToken st) (ticked w) with
    | (Returns (_, _, Some err), w') => (Returns (false, Some err, Some st), w')
    | (Returns (newToken, duration, None), w') =>
        let st' := mkSessionState newToken
                     (Truncate (Add (now w') duration) Second) (RefreshToken st) in
        (Returns (true, None, Some st'),
         logging (LogRefreshed st' (ExpiresOn st)) (ticked w'))
    | (Panics msg, w') => (Panics msg, w')
    end.
Proof.
  intros [Hexp Htok]. unfold RefreshSessionIfNeeded, bind, time_Now. fold (now w).
  assert (After (ExpiresOn st) (now w) = false) as ->
    by (unfold After; lia).
  rewrite bool_decide_eq_false_2 by done. cbn [orb]. fold (ticked w).
  destruct (redeemRefreshToken p (RefreshToken st) (ticked w)) as [[[[tok d] [e|]]|m] w'];
    reflexivity.
Qed.

(** What [redeemRefreshToken] comes to once its request is built. *)
Lemma redeemRefreshToken_sent (p : ProviderData) (tok : string) (req : Request) (w : World) :
  token_request p tok = Some req →
  ∃ u, RedeemURL p = Some u ∧
  redeemRefreshToken p tok w
  = (Returns
       match network w req with
       | TransportError err => ("", 0, Some err)
       | Response _ _ (Some err) => ("", 0, Some err)
       | Response StatusCode body None =>
           if bool_decide (StatusCode ≠ 200) then
             ("", 0, Some (status_error StatusCode (URL_String u) body))
           else
             match json_Unmarshal body with
             | (_, Some err) => ("", 0, Some err)
             | (data, None) =>
                 (data_AccessToken data, seconds (data_ExpiresIn data), None)
             end
       end,
     sending req w).
Proof.
  unfold token_request, redeemRefreshToken, http_NewRequest, bind, String_of, ret.
  destruct (RedeemURL p) as [u|]; [|done].
  destruct (url_Parse (URL_String u)) as [u'|e]; [|done].
  intros [= <-]. exists u. split; [done|].
  cbn [Method ReqURL ReqHeader ReqBody]. unfold http_Do.
  cbn [network]. fold (sending (mkRequest "POST" u'
    (Set_ ∅ "Content-Type" "application/x-www-form-urlencoded")
    (Values_Encode
       [("client_id", ClientID p); ("client_secret", ClientSecret p);
        ("refresh_token", tok); ("grant_type", "refresh_token")])) w).
  destruct (network w _) as [e|sc b [e|]]; try reflexivity.
  destruct (bool_decide (sc ≠ 200)); [reflexivity|].
  destruct (json_Unmarshal b) as [d [e|]]; reflexivity.
Qed.

Lemma wrap64_small (z : Z) : int64_min ≤ z ≤ int64_max → wrap64 z = z.
Proof.
  unfold wrap64, int64_min, int64_max. intros Hz.
  rewrite Z.mod_small by lia. lia.
Qed.

Lemma seconds_exact (n : Z) : -9223372036 ≤ n ≤ 9223372036 → seconds n = n * Second.
Proof.
  intros Hn. unfold seconds. apply wrap64_small.
  unfold int64_min, int64_max, Second. lia.
Qed.

Lemma Truncate_Second (t : Time) :
  Truncate t Second `mod` Second = 0
  ∧ Truncate t Second ≤ t < Truncate t Second + Second.
Proof.
  unfold Truncate, Second. cbn [Z.leb Z.compare].
  pose proof (Z.mod_pos_bound t 1000000000 ltac:(lia)) as Hb.
  pose proof (Z.div_mod t 1000000000 ltac:(lia)) as Hd.
  split; [|lia].
  replace (t - t `mod` 1000000000) with (t `div` 1000000000 * 1000000000) by lia.
  apply Z.mod_mul. lia.
Qed.

(** C1, as amended.  When the clock reads strictly less than the expiry,
    [RefreshSessionIfNeeded] returns [(false, nil)], leaves the session as
    it is and sends nothing.  From the expiry on, the instant of expiry
    included, a session with a refresh token is refreshed: the token
    request is sent. *)
Theorem refresh_only_from_expiry_on (p : ProviderData) (st : SessionState) (w : World) :
  (now w < ExpiresOn st →
   (RefreshSessionIfNeeded p (Some st) w).1 = Returns (false, None, Some st)
   ∧ sent (RefreshSessionIfNeeded p (Some st) w).2 = sent w)
  ∧ (ExpiresOn st ≤ now w → RefreshToken st ≠ "" →
     ∀ req, token_request p (RefreshToken st) = Some req →
     sent (RefreshSessionIfNeeded p (Some st) w).2 = sent w ++ [req]).
Proof.
  split.
  - intros Hlt. rewrite RefreshSessionIfNeeded_skip; [done|].
    apply orb_true_iff. left. unfold After. lia.
  - intros Hexp Htok req Hreq.
    rewrite RefreshSessionIfNeeded_due by done.
    destruct (redeemRefreshToken_sent p _ req (ticked w) Hreq) as (u & _ & ->).
    destruct (network (ticked w) req) as [e|sc b [e|]]; try done.
    destruct (bool_decide (sc ≠ 200)); [done|].
    destruct (json_Unmarshal b) as [d [e|]]; done.
Qed.

(** The ways the token exchange fails, with the error it fails with: no
    response, a body that cannot be read, a status other than 200, a body
    that does not decode. *)
Inductive exchange_fails (p : ProviderData) (st : SessionState) (w : World)
  : error → Prop :=
  | fails_transport req err :
      token_request p (RefreshToken st) = Some req →
      network w req = TransportError err →
      exchange_fails p st w err
  | fails_read req status partial err :
      token_request p (RefreshToken st) = Some req →
      network w req = Response status partial (Some err) →
      exchange_fails p st w err
  | fails_status req u status body :
      token_request p (RefreshToken st) = Some req →
      RedeemURL p = Some u →
      network w req = Response status body None →
      status ≠ 200 →
      exchange_fails p st w (status_error status (URL_String u) body)
  | fails_decode req body data err :
      token_request p (RefreshToken st) = Some req →
      network w req = Response 200 body None →
      json_Unmarshal body = (data, Some err) →
      exchange_fails p st w err.

(** C2.  When a refresh is attempted and the token exchange fails (no
    response, unreadable body, status other than 200, undecodable body),
    [RefreshSessionIfNeeded] returns [(false, err)] with the error of the
    failure, and the session keeps its access token and its expiry. *)
Theorem refresh_failure_keeps_session (p : ProviderData) (st : SessionState)
    (w : World) (err : error) :
  refresh_due st w →
  exchange_fails p st w err →
  (RefreshSessionIfNeeded p (Some st) w).1 = Returns (false, Some err, Some st).
Proof.
  intros Hdue Hfail. rewrite RefreshSessionIfNeeded_due by done.
  inversion Hfail as [req e Hreq Hnet|req sc b e Hreq Hnet
                     |req u sc b Hreq Hu Hnet Hsc|req b d e Hreq Hnet Hdec]; subst;
    destruct (redeemRefreshToken_sent p _ req (ticked w) Hreq) as (u' & Hu' & ->);
    change (network (ticked w) req) with (network w req); rewrite Hnet.
  - done.
  - done.
  - rewrite bool_decide_eq_true_2 by done.
    assert (u' = u) as -> by congruence. done.
  - rewrite bool_decide_eq_false_2 by (intros ?; done). by rewrite Hdec.
Qed.

(** C4.  A session without a refresh token is never refreshed, expired or
    not: [RefreshSessionIfNeeded] returns [(false, nil)], leaves the session
    as it is and sends nothing. *)
Theorem refresh_needs_refresh_token (p : ProviderData) (st : SessionState) (w : World) :
  RefreshToken st = "" →
  (RefreshSessionIfNeeded p (Some st) w).1 = Returns (false, None, Some st)
  ∧ sent (RefreshSessionIfNeeded p (Some st) w).2 = sent w.
Proof.
  intros Htok. rewrite RefreshSessionIfNeeded_skip; [done|].
  apply orb_true_iff. right. by apply bool_decide_eq_true_2.
Qed.

(** *** Decoding the token response *)

Lemma find_field_access_token : find_field "access_token" = Some fieldAccessToken.
Proof. reflexivity. Qed.

Lemma find_field_expires_in : find_field "expires_in" = Some fieldExpiresIn.
Proof. reflexivity. Qed.

Lemma json_Unmarshal_token_response (body a : string) (N : Z) :
  json_scan body
  = inl (JObject [("access_token", JString a); ("expires_in", JInt N)]) →
  in_int64 N = true →
  json_Unmarshal body = (mkTokenData a N, None).
Proof.
  intros Hscan HN. unfold json_Unmarshal. rewrite Hscan.
  cbn [foldl]. unfold decode_member at 2. cbn [fst snd].
  rewrite find_field_access_token. cbn [data_ExpiresIn fst snd].
  unfold decode_member. cbn [fst snd]. rewrite find_field_expires_in.
  by rewrite HN.
Qed.

(** A member decodes without a type error: its key selects no field, or
    its value is [null] or of the field's kind. *)
Definition well_typed (m : string * json) : bool :=
  match find_field m.1 with
  | None => true
  | Some fieldAccessToken =>
      match m.2 with JNull | JString _ => true | _ => false end
  | Some fieldExpiresIn =>
      match m.2 with JNull => true | JInt n => in_int64 n | _ => false end
  end.

(** No member of the object selects the field. *)
Definition lacks (f : tokenField) (members : list (string * json)) : bool :=
  forallb (λ m, match find_field m.1, f with
                | Some fieldAccessToken, fieldAccessToken
                | Some fieldExpiresIn, fieldExpiresIn => false
                | _, _ => true
                end) members.

Lemma decode_well_typed (members : list (string * json)) (st : tokenData * option error) :
  forallb well_typed members = true →
  (foldl decode_member st members).2 = st.2.
Proof.
  revert st. induction members as [|m members IH]; intros st Hwt; [done|].
  cbn [forallb] in Hwt. apply andb_true_iff in Hwt as [Hm Hrest].
  cbn [foldl]. rewrite IH by done.
  unfold well_typed in Hm. unfold decode_member.
  destruct (find_field m.1) as [[]|]; [| |done].
  - destruct m.2; done.
  - destruct m.2; try done. by rewrite Hm.
Qed.

Lemma decode_lacks_access_token (members : list (string * json))
    (st : tokenData * option error) :
  lacks fieldAccessToken members = true →
  data_AccessToken (foldl decode_member st members).1 = data_AccessToken st.1.
Proof.
  revert st. induction members as [|m members IH]; intros st Hl; [done|].
  cbn [lacks forallb] in Hl. apply andb_true_iff in Hl as [Hm Hrest].
  cbn [foldl]. rewrite IH by done.
  unfold decode_member.
  destruct (find_field m.1) as [[]|]; [done| |done].
  destruct m.2; try done. by destruct (in_int64 _).
Qed.

Lemma decode_lacks_expires_in (members : list (string * json))
    (st : tokenData * option error) :
  lacks fieldExpiresIn members = true →
  data_ExpiresIn (foldl decode_member st members).1 = data_ExpiresIn st.1.
Proof.
  revert st. induction members as [|m members IH]; intros st Hl; [done|].
  cbn [lacks forallb] in Hl. apply andb_true_iff in Hl as [Hm Hrest].
  cbn [foldl]. rewrite IH by done.
  unfold decode_member.
  destruct (find_field m.1) as [[]|]; [|done|done].
  by destruct m.2.
Qed.

(** What a refresh comes to when the exchange delivers status 200 and a
    body that decodes. *)
Lemma RefreshSessionIfNeeded_decoded (p : ProviderData) (st : SessionState)
    (w : World) (req : Request) (body : string) (data : tokenData) :
  refresh_due st w →
  token_request p (RefreshToken st) = Some req →
  network w req = Response 200 body None →
  json_Unmarshal body = (data, None) →
  (RefreshSessionIfNeeded p (Some st) w).1
  = Returns (true, None,
             Some (mkSessionState (data_AccessToken data)
                     (Truncate (Add (clock w (S (reads w)))
                                  (seconds (data_ExpiresIn data))) Second)
                     (RefreshToken st))).
Proof.
  intros Hdue Hreq Hnet Hdec. rewrite RefreshSessionIfNeeded_due by done.
  destruct (redeemRefreshToken_sent p _ req (ticked w) Hreq) as (u & _ & ->).
  change (network (ticked w) req) with (network w req). rewrite Hnet.
  rewrite bool_decide_eq_false_2 by (intros ?; done). by rewrite Hdec.
Qed.

(** C3, as amended.  When a refresh is attempted and the token endpoint
    answers with status 200 and the JSON object
    [{"access_token": a, "expires_in": N}], where N seconds fit a
    [Duration] (|N| <= 9223372036), [RefreshSessionIfNeeded] returns
    [(true, nil)] and the session holds the access token [a] and the expiry
    [T + N] seconds truncated to the whole second, T being the reading of
    the clock after the exchange. *)
Theorem refresh_success_commits (p : ProviderData) (st : SessionState) (w : World)
    (req : Request) (body a : string) (N : Z) :
  refresh_due st w →
  token_request p (RefreshToken st) = Some req →
  network w req = Response 200 body None →
  json_scan body
  = inl (JObject [("access_token", JString a); ("expires_in", JInt N)]) →
  -9223372036 ≤ N ≤ 9223372036 →
  let T := clock w (S (reads w)) in
  let expiry := Truncate (T + N * Second) Second in
  (RefreshSessionIfNeeded p (Some st) w).1
  = Returns (true, None, Some (mkSessionState a expiry (RefreshToken st)))
  ∧ expiry `mod` Second = 0
  ∧ expiry ≤ T + N * Second < expiry + Second.
Proof.
  intros Hdue Hreq Hnet Hscan HN T expiry. split; [|apply Truncate_Second].
  rewrite (RefreshSessionIfNeeded_decoded p st w req body (mkTokenData a N)); try done.
  - cbn [data_AccessToken data_ExpiresIn]. by rewrite seconds_exact.
  - apply json_Unmarshal_token_response; [done|].
    unfold in_int64, int64_min, int64_max. apply andb_true_iff. split; lia.
Qed.

(** C8.  When a refresh is attempted and the token endpoint answers with a
    status other than 200 and a body that is read, the error
    [RefreshSessionIfNeeded] returns has the message
    [got <status> from <quoted token URL> <body>]: it holds the status code
    in decimal and the body as it was received, whatever the body is. *)
Theorem refresh_status_error_message (p : ProviderData) (st : SessionState)
    (w : World) (req : Request) (status : Z) (body : string) :
  refresh_due st w →
  token_request p (RefreshToken st) = Some req →
  network w req = Response status body None →
  status ≠ 200 →
  ∃ u msg,
    RedeemURL p = Some u
    ∧ msg = "got " +:+ pretty status +:+ " from " +:+ strconv_Quote (URL_String u)
            +:+ " " +:+ body
    ∧ (RefreshSessionIfNeeded p (Some st) w).1
      = Returns (false, Some (errorString msg), Some st)
    ∧ contains (pretty status) msg
    ∧ contains body msg.
Proof.
  intros Hdue Hreq Hnet Hstatus. rewrite RefreshSessionIfNeeded_due by done.
  destruct (redeemRefreshToken_sent p _ req (ticked w) Hreq) as (u & Hu & ->).
  change (network (ticked w) req) with (network w req). rewrite Hnet.
  rewrite bool_decide_eq_true_2 by done.
  exists u, ("got " +:+ pretty status +:+ " from " +:+ strconv_Quote (URL_String u)
             +:+ " " +:+ body).
  split; [done|]. split; [done|]. split; [reflexivity|].
  split; [apply contains_here|].
  do 4 apply contains_append_r. apply contains_suffix.
Qed.

(** C10, as amended.  When a refresh is attempted and the token endpoint
    answers with status 200 and a JSON object whose members decode without
    a type error, [RefreshSessionIfNeeded] returns [(true, nil)] whether or
    not the object has the two fields: without [access_token] the new
    access token is the empty string, and without [expires_in] the new
    expiry is the reading of the clock truncated to the whole second, which
    is not after that reading. *)
Theorem refresh_success_without_fields (p : ProviderData) (st : SessionState)
    (w : World) (req : Request) (body : string) (members : list (string * json)) :
  refresh_due st w →
  token_request p (RefreshToken st) = Some req →
  network w req = Response 200 body None →
  json_scan body = inl (JObject members) →
  forallb well_typed members = true →
  ∃ st',
    (RefreshSessionIfNeeded p (Some st) w).1 = Returns (true, None, Some st')
    ∧ RefreshToken st' = RefreshToken st
    ∧ (lacks fieldAccessToken members = true → AccessToken st' = "")
    ∧ (lacks fieldExpiresIn members = true →
       ExpiresOn st' = Truncate (clock w (S (reads w))) Second
       ∧ After (ExpiresOn st') (clock w (S (reads w))) = false).
Proof.
  intros Hdue Hreq Hnet Hscan Hwt.
  assert (json_Unmarshal body
          = ((foldl decode_member (mkTokenData "" 0, None) members).1, None)) as Hdec.
  { unfold json_Unmarshal. rewrite Hscan.
    pose proof (decode_well_typed members (mkTokenData "" 0, None) Hwt) as Herr.
    destruct (foldl decode_member _ members) as [d e]. cbn in Herr. by subst. }
  eexists. split; [exact (RefreshSessionIfNeeded_decoded p st w req body _ Hdue Hreq Hnet Hdec)|].
  cbn [AccessToken ExpiresOn RefreshToken]. repeat split.
  - intros Hl. by rewrite decode_lacks_access_token.
  - rewrite decode_lacks_expires_in by done. cbn [data_ExpiresIn fst].
    unfold seconds, Add. change (wrap64 (0 * Second)) with 0. by rewrite Z.add_0_r.
  - rewrite decode_lacks_expires_in by done. cbn [data_ExpiresIn fst].
    unfold seconds, Add. change (wrap64 (0 * Second)) with 0. rewrite Z.add_0_r.
    pose proof (Truncate_Second (clock w (S (reads w)))) as [_ Hb].
    unfold After. lia.
Qed.

(** *** Validation and user information *)

(** The request the provider sends to the userinfo endpoint for a session,
    when the validation URL is set and parses. *)
Definition userinfo_request (p : ProviderData) (st : SessionState) : option Request :=
  match ValidateURL p with
  | None => None
  | Some u =>
      match url_Parse (URL_String u) with
      | inr _ => None
      | inl u' => Some (mkRequest "GET" u' (getOktaHeader (AccessToken st)) "")
      end
  end.

Lemma getOktaHeader_Authorization (access_token : string) :
  Get (getOktaHeader access_token) "Authorization" = "Bearer " +:+ access_token.
Proof. unfold Get, getOktaHeader, Set_. by rewrite lookup_insert_eq. Qed.

Lemma userinfo_request_bearer (p : ProviderData) (st : SessionState) (req : Request) :
  userinfo_request p st = Some req →
  Method req = "GET"
  ∧ Get (ReqHeader req) "Authorization" = "Bearer " +:+ AccessToken st
  ∧ dom (ReqHeader req) = {["Authorization"]}.
Proof.
  unfold userinfo_request. destruct (ValidateURL p) as [u|]; [|done].
  destruct (url_Parse _) as [u'|]; [|done]. intros [= <-].
  cbn [Method ReqHeader]. split; [done|]. split; [apply getOktaHeader_Authorization|].
  unfold getOktaHeader, Set_. rewrite dom_insert_L, dom_empty_L.
  change (CanonicalMIMEHeaderKey "Authorization") with "Authorization". set_solver.
Qed.

(** C5.  [ValidateSessionState] returns a boolean for every session, with
    no error result.  It is false when no response arrives, when the status
    is not 200 (401 and 500 among them), when the body cannot be read and
    when the body is not JSON; it is true on status 200 with a body that is
    read and is JSON. *)
Theorem ValidateSessionState_fails_closed (p : ProviderData) (st : SessionState)
    (w : World) :
  ∃ valid : bool,
    (ValidateSessionState p (Some st) w).1 = Returns valid
    ∧ (userinfo_request p st = None → valid = false)
    ∧ ∀ req, userinfo_request p st = Some req →
        match network w req with
        | TransportError _ => valid = false
        | Response status body readErr =>
            (status ≠ 200 → valid = false)
            ∧ (is_Some readErr → valid = false)
            ∧ (∀ err, json_scan body = inr err → valid = false)
            ∧ (status = 200 → readErr = None →
               ∀ v, json_scan body = inl v → valid = true)
        end.
Proof.
  unfold ValidateSessionState, userinfo_request, validateToken, http_NewRequest,
    AccessToken_of, bind, ret, http_Do.
  destruct (ValidateURL p) as [u|]; [|by exists false].
  destruct (url_Parse (URL_String u)) as [u'|e]; [|by exists false].
  cbn [Method ReqURL ReqHeader ReqBody network fst].
  destruct (network w (mkRequest "GET" u' (getOktaHeader (AccessToken st)) ""))
    as [e|sc body [e|]] eqn:Hnet.
  - exists false. split; [done|]. split; [done|]. intros req [= <-]. by rewrite Hnet.
  - exists false. split; [done|]. split; [done|]. intros req [= <-]. rewrite Hnet.
    repeat split; done.
  - eexists. split; [done|]. split; [done|]. intros req [= <-]. rewrite Hnet.
    split; [|split; [|split]].
    + intros Hsc. by rewrite bool_decide_eq_false_2.
    + by intros [? [=]].
    + intros err ->. apply andb_false_r.
    + intros -> _ v ->. done.
Qed.

(** C7.  [GetEmailAddress] sends one GET to the userinfo endpoint whose
    only header is [Authorization: Bearer <access token>].  When the answer
    is a JSON object it reads the key [email]: a string value is returned
    with no error, and without the key the result is the empty string and
    an error. *)
Theorem GetEmailAddress_reads_email (p : ProviderData) (st : SessionState)
    (w : World) (req : Request) :
  userinfo_request p st = Some req →
  Get (ReqHeader req) "Authorization" = "Bearer " +:+ AccessToken st
  ∧ dom (ReqHeader req) = {["Authorization"]}
  ∧ sent (GetEmailAddress p (Some st) w).2 = sent w ++ [req]
  ∧ ∀ body members,
      network w req = Response 200 body None →
      json_scan body = inl (JObject members) →
      (∀ a, map_index members "email" = Some (JString a) →
            (GetEmailAddress p (Some st) w).1 = Returns (a, None))
      ∧ (map_index members "email" = None →
         ∃ err, (GetEmailAddress p (Some st) w).1 = Returns ("", Some err)).
Proof.
  intros Hreq. destruct (userinfo_request_bearer p st req Hreq) as (_ & Hauth & Hdom).
  split; [done|]. split; [done|].
  revert Hreq.
  unfold userinfo_request, GetEmailAddress, http_NewRequest, AccessToken_of,
    String_of, api_Request, bind, ret, http_Do.
  destruct (ValidateURL p) as [u|]; [|done].
  destruct (url_Parse (URL_String u)) as [u'|e]; [|done].
  intros [= <-]. cbn [Method ReqURL ReqHeader ReqBody network sent fst snd].
  clear Hauth Hdom. generalize (getOktaHeader (AccessToken st)). intros hdr.
  set (req := mkRequest "GET" u' hdr "").
  split.
  - destruct (network w req) as [e|sc body [e|]]; try done.
    destruct (bool_decide (sc ≠ 200)); [done|]. by destruct (json_scan body).
  - intros body members -> Hscan. rewrite bool_decide_eq_false_2 by (intros ?; done).
    rewrite Hscan. cbn [Json_Get]. split.
    + by intros a ->.
    + intros ->. by eexists.
Qed.

(** *** Further properties of the provider *)

(** With a nil session [RefreshSessionIfNeeded] returns [(false, nil)]
    at once: the clock is not read and nothing is sent. *)
Theorem refresh_nil_session (p : ProviderData) (w : World) :
  RefreshSessionIfNeeded p None w = (Returns (false, None, None), w).
Proof. unfold RefreshSessionIfNeeded, ret. reflexivity. Qed.

(** [NewOktaProvider] names the provider [Okta], gives it the default
    scope when it has none, and keeps every other field. *)
Theorem NewOktaProvider_defaults (p : ProviderData) :
  NewOktaProvider p
  = mkProviderData "Okta" (ClientID p) (ClientSecret p) (LoginURL p)
      (RedeemURL p) (ValidateURL p)
      (if bool_decide (Scope p = "") then "openid profile email offline_access"
       else Scope p).
Proof.
  unfold NewOktaProvider. cbn [Scope ProviderName ClientID ClientSecret LoginURL
    RedeemURL ValidateURL].
  by case_bool_decide.
Qed.

(** [getOktaHeader] builds a header map with one entry: [Authorization],
    with the single value [Bearer <access token>]. *)
Theorem getOktaHeader_only_Authorization (access_token key : string) :
  getOktaHeader access_token !! key
  = (if bool_decide (key = "Authorization") then Some ["Bearer " +:+ access_token]
     else None).
Proof.
  unfold getOktaHeader, Set_.
  change (CanonicalMIMEHeaderKey "Authorization") with "Authorization".
  case_bool_decide as Hkey.
  - subst key. apply lookup_insert_eq.
  - rewrite lookup_insert_ne by done. apply lookup_empty.
Qed.

(** [GetUserName] sends the same request as [GetEmailAddress] and reads
    the key [preferred_username]. *)
Theorem GetUserName_reads_preferred_username (p : ProviderData) (st : SessionState)
    (w : World) (req : Request) :
  userinfo_request p st = Some req →
  sent (GetUserName p (Some st) w).2 = sent w ++ [req]
  ∧ ∀ body members,
      network w req = Response 200 body None →
      json_scan body = inl (JObject members) →
      (∀ a, map_index members "preferred_username" = Some (JString a) →
            (GetUserName p (Some st) w).1 = Returns (a, None))
      ∧ (map_index members "preferred_username" = None →
         ∃ err, (GetUserName p (Some st) w).1 = Returns ("", Some err)).
Proof.
  unfold userinfo_request, GetUserName, http_NewRequest, AccessToken_of,
    String_of, api_Request, bind, ret, http_Do.
  destruct (ValidateURL p) as [u|]; [|done].
  destruct (url_Parse (URL_String u)) as [u'|e]; [|done].
  intros [= <-]. cbn [Method ReqURL ReqHeader ReqBody network sent fst snd].
  generalize (getOktaHeader (AccessToken st)). intros hdr.
  set (req := mkRequest "GET" u' hdr "").
  split.
  - destruct (network w req) as [e|sc body [e|]]; try done.
    destruct (bool_decide (sc ≠ 200)); [done|]. by destruct (json_scan body).
  - intros body members -> Hscan. rewrite bool_decide_eq_false_2 by (intros ?; done).
    rewrite Hscan. cbn [Json_Get]. split.
    + by intros a ->.
    + intros ->. by eexists.
Qed.

End WithLib.

(** *** The theorems at concrete inputs *)

Import Samples.
#[local] Existing Instance providers_lib.

(** The requests the sample provider sends for the sample session. *)
Definition sample_token_request : Request :=
  mkRequest "POST" (okta_endpoint domain "/oauth2/v1/token")
    (Set_ ∅ "Content-Type" "application/x-www-form-urlencoded")
    "client_id=client&client_secret=secret&grant_type=refresh_token&refresh_token=refresh-1".

Definition sample_userinfo_request : Request :=
  mkRequest "GET" (okta_endpoint domain "/oauth2/v1/userinfo")
    (getOktaHeader "old") "".

(** The sample provider's endpoints, rendered. *)
Example okta_endpoints_rendered :
  (URL_String <$> LoginURL okta, URL_String <$> RedeemURL okta,
   URL_String <$> ValidateURL okta)
  = (Some "https://dev-1.okta.com/oauth2/v1/authorize",
     Some "https://dev-1.okta.com/oauth2/v1/token",
     Some "https://dev-1.okta.com/oauth2/v1/userinfo").
Proof. reflexivity. Qed.

(** A provider with no login URL, a token URL that renders as the empty
    string and a validation URL of its own. *)
Definition own_validation : URL :=
  mkURL "http" "" None "idp.example" "/check" "" false "" "".
Definition half_configured : ProviderData :=
  mkProviderData "Okta" "id" "secret"
    None (Some (mkURL "" "" None "" "" "" false "" "")) (Some own_validation)
    "openid".

(** C6 at concrete inputs: the nil login URL and the empty token URL are
    set to the domain's endpoints, the validation URL that is set is kept,
    and the endpoints render as [https://dev-1.okta.com/oauth2/v1/...]. *)
Lemma SetOktaDomain_set_if_empty_witness :
  LoginURL (SetOktaDomain "dev-1.okta.com" half_configured)
  = Some (mkURL "https" "" None "dev-1.okta.com" "/oauth2/v1/authorize" "" false "" "")
  ∧ RedeemURL (SetOktaDomain "dev-1.okta.com" half_configured)
    = Some (mkURL "https" "" None "dev-1.okta.com" "/oauth2/v1/token" "" false "" "")
  ∧ ValidateURL (SetOktaDomain "dev-1.okta.com" half_configured) = Some own_validation
  ∧ URL_String (mkURL "https" "" None "dev-1.okta.com" "/oauth2/v1/authorize" "" false "" "")
    = "https://dev-1.okta.com/oauth2/v1/authorize"
  ∧ URL_String (mkURL "https" "" None "dev-1.okta.com" "/oauth2/v1/token" "" false "" "")
    = "https://dev-1.okta.com/oauth2/v1/token"
  ∧ URL_String (mkURL "https" "" None "dev-1.okta.com" "/oauth2/v1/userinfo" "" false "" "")
    = "https://dev-1.okta.com/oauth2/v1/userinfo".
Proof.
  destruct (SetOktaDomain_set_if_empty "dev-1.okta.com" half_configured)
    as (Hlogin & Hredeem & Hvalidate & _ & _ & Htext).
  specialize (Htext eq_refl).
  apply Forall_cons_1 in Htext as [Hauthorize Htext].
  apply Forall_cons_1 in Htext as [Htoken Htext].
  apply Forall_cons_1 in Htext as [Huserinfo _].
  split; [exact Hlogin|]. split; [exact Hredeem|]. split; [exact Hvalidate|].
  split; [exact (Hauthorize eq_refl)|]. split; [exact (Htoken eq_refl)|].
  exact (Huserinfo eq_refl).
Defined.

(** C1 at concrete inputs: one nanosecond before the expiry nothing is
    sent; one nanosecond after it the token request is. *)
Lemma refresh_only_from_expiry_on_witness :
  (now (world (T0 - 1) (Response 200 body_new123 None)) < ExpiresOn session
   ∧ (RefreshSessionIfNeeded okta (Some session)
        (world (T0 - 1) (Response 200 body_new123 None))).1
     = Returns (false, None, Some session)
   ∧ sent (RefreshSessionIfNeeded okta (Some session)
             (world (T0 - 1) (Response 200 body_new123 None))).2 = [])
  ∧ (ExpiresOn session ≤ now (world (T0 + 1) (Response 200 body_new123 None))
     ∧ sent (RefreshSessionIfNeeded okta (Some session)
               (world (T0 + 1) (Response 200 body_new123 None))).2
       = [sample_token_request]).
Proof.
  split.
  - split; [reflexivity|].
    apply (proj1 (refresh_only_from_expiry_on okta session
                    (world (T0 - 1) (Response 200 body_new123 None)))).
    reflexivity.
  - assert (ExpiresOn session ≤ now (world (T0 + 1) (Response 200 body_new123 None)))
      as Hexp by (by vm_compute).
    split; [exact Hexp|].
    apply (proj2 (refresh_only_from_expiry_on okta session
                    (world (T0 + 1) (Response 200 body_new123 None)))
             Hexp ltac:(done) sample_token_request).
    reflexivity.
Defined.

(** C1 as stated fails at the instant of expiry: with the clock at the
    expiry T0 of the sample session, [now <= ExpiresOn] holds, and yet the
    token endpoint is called and the session is refreshed. *)
Lemma refresh_at_the_instant_of_expiry :
  now (world T0 (Response 200 body_new123 None)) ≤ ExpiresOn session
  ∧ (RefreshSessionIfNeeded okta (Some session)
       (world T0 (Response 200 body_new123 None))).1
    = Returns (true, None, Some (mkSessionState "new123" 4600000000000 "refresh-1"))
  ∧ sent (RefreshSessionIfNeeded okta (Some session)
            (world T0 (Response 200 body_new123 None))).2
    = [sample_token_request].
Proof. split; [done|]. split; vm_compute; reflexivity. Qed.

(** C2 at a concrete input: the token endpoint answers 500. *)
Lemma refresh_failure_keeps_session_witness :
  refresh_due session (world (T0 + 5) (Response 500 "boom" None))
  ∧ exchange_fails okta session (world (T0 + 5) (Response 500 "boom" None))
      (status_error 500 (URL_String (okta_endpoint domain "/oauth2/v1/token")) "boom")
  ∧ (RefreshSessionIfNeeded okta (Some session)
       (world (T0 + 5) (Response 500 "boom" None))).1
    = Returns (false,
               Some (status_error 500
                       (URL_String (okta_endpoint domain "/oauth2/v1/token")) "boom"),
               Some session).
Proof.
  assert (refresh_due session (world (T0 + 5) (Response 500 "boom" None))) as Hdue
    by (split; [by vm_compute | done]).
  assert (exchange_fails okta session (world (T0 + 5) (Response 500 "boom" None))
            (status_error 500 (URL_String (okta_endpoint domain "/oauth2/v1/token"))
               "boom")) as Hfail
    by (by apply (fails_status okta session _ sample_token_request
                    (okta_endpoint domain "/oauth2/v1/token") 500 "boom")).
  split; [exact Hdue|]. split; [exact Hfail|].
  exact (refresh_failure_keeps_session okta session _ _ Hdue Hfail).
Defined.

(** C3 at a concrete input: the response of spec section 8. *)
Lemma refresh_success_commits_witness :
  refresh_due session (world (T0 + 5) (Response 200 body_new123 None))
  ∧ (RefreshSessionIfNeeded okta (Some session)
       (world (T0 + 5) (Response 200 body_new123 None))).1
    = Returns (true, None,
               Some (mkSessionState "new123"
                       (Truncate (T0 + 5 + 3600 * Second) Second) "refresh-1")).
Proof.
  assert (refresh_due session (world (T0 + 5) (Response 200 body_new123 None))) as Hdue
    by (split; [by vm_compute | done]).
  split; [exact Hdue|].
  refine (proj1 (refresh_success_commits okta session _ sample_token_request
                   body_new123 "new123" 3600 Hdue _ _ _ _));
    [reflexivity|reflexivity|reflexivity|by vm_compute].
Defined.

(** C3 as stated fails when the lifetime does not fit a [Duration]: for
    [expires_in = 9223372037] the product with [time.Second] wraps around,
    and the new expiry lies 292 years before the clock's reading instead of
    being the reading plus N seconds. *)
Lemma refresh_lifetime_wraps :
  json_scan body_far_future
  = inl (JObject [("access_token", JString "new123"); ("expires_in", JInt 9223372037)])
  ∧ (RefreshSessionIfNeeded okta (Some session)
       (world (T0 + 5) (Response 200 body_far_future None))).1
    = Returns (true, None,
               Some (mkSessionState "new123" (-9223371037000000000) "refresh-1"))
  ∧ Truncate (T0 + 5 + 9223372037 * Second) Second = 9223373037000000000.
Proof. split; [reflexivity|]. split; vm_compute; reflexivity. Qed.

(** C4 at a concrete input: an expired session without refresh token. *)
Lemma refresh_needs_refresh_token_witness :
  RefreshToken (mkSessionState "old" T0 "") = ""
  ∧ (RefreshSessionIfNeeded okta (Some (mkSessionState "old" T0 ""))
       (world (T0 + 5) (Response 200 body_new123 None))).1
    = Returns (false, None, Some (mkSessionState "old" T0 ""))
  ∧ sent (RefreshSessionIfNeeded okta (Some (mkSessionState "old" T0 ""))
            (world (T0 + 5) (Response 200 body_new123 None))).2 = [].
Proof.
  split; [reflexivity|].
  exact (refresh_needs_refresh_token okta (mkSessionState "old" T0 "")
           (world (T0 + 5) (Response 200 body_new123 None)) eq_refl).
Defined.

(** C7 at a concrete input: the responses of spec section 8. *)
Lemma GetEmailAddress_reads_email_witness :
  userinfo_request okta session = Some sample_userinfo_request
  ∧ (GetEmailAddress okta (Some session)
       (world (T0 + 5) (Response 200 body_email None))).1
    = Returns ("a@b.com", None)
  ∧ ∃ err, (GetEmailAddress okta (Some session)
              (world (T0 + 5) (Response 200 body_empty_object None))).1
           = Returns ("", Some err).
Proof.
  assert (userinfo_request okta session = Some sample_userinfo_request) as Hreq
    by reflexivity.
  split; [exact Hreq|]. split.
  - destruct (GetEmailAddress_reads_email okta session
                (world (T0 + 5) (Response 200 body_email None))
                sample_userinfo_request Hreq) as (_ & _ & _ & Hread).
    destruct (Hread body_email [("email", JString "a@b.com")]) as [Hemail _];
      [reflexivity|reflexivity|].
    apply Hemail. reflexivity.
  - destruct (GetEmailAddress_reads_email okta session
                (world (T0 + 5) (Response 200 body_empty_object None))
                sample_userinfo_request Hreq) as (_ & _ & _ & Hread).
    destruct (Hread body_empty_object []) as [_ Hmissing];
      [reflexivity|reflexivity|].
    apply Hmissing. reflexivity.
Defined.

(** [GetUserName] at a concrete input: a response without the key. *)
Lemma GetUserName_reads_preferred_username_witness :
  userinfo_request okta session = Some sample_userinfo_request
  ∧ ∃ err, (GetUserName okta (Some session)
              (world (T0 + 5) (Response 200 body_email None))).1
           = Returns ("", Some err).
Proof.
  assert (userinfo_request okta session = Some sample_userinfo_request) as Hreq
    by reflexivity.
  split; [exact Hreq|].
  destruct (GetUserName_reads_preferred_username okta session
              (world (T0 + 5) (Response 200 body_email None))
              sample_userinfo_request Hreq) as (_ & Hread).
  destruct (Hread body_email [("email", JString "a@b.com")]) as [_ Hmissing];
    [reflexivity|reflexivity|].
  apply Hmissing. reflexivity.
Defined.

(** C8 at a concrete input: the token endpoint answers 500. *)
Lemma refresh_status_error_message_witness :
  refresh_due session (world (T0 + 5) (Response 500 "boom" None))
  ∧ ∃ msg,
      (RefreshSessionIfNeeded okta (Some session)
         (world (T0 + 5) (Response 500 "boom" None))).1
      = Returns (false, Some (errorString msg), Some session)
      ∧ contains "500" msg ∧ contains "boom" msg.
Proof.
  assert (refresh_due session (world (T0 + 5) (Response 500 "boom" None))) as Hdue
    by (split; [by vm_compute | done]).
  split; [exact Hdue|].
  assert (token_request okta (RefreshToken session) = Some sample_token_request)
    as Hreq by reflexivity.
  destruct (refresh_status_error_message okta session _ sample_token_request
              500 "boom" Hdue Hreq eq_refl ltac:(done))
    as (u & msg & _ & _ & Hres & Hcode & Hbody).
  exists msg. split; [exact Hres|]. split; [exact Hcode|exact Hbody].
Defined.

(** C10 at a concrete input: the empty object. *)
Lemma refresh_success_without_fields_witness :
  refresh_due session (world (T0 + 5) (Response 200 body_empty_object None))
  ∧ ∃ st',
      (RefreshSessionIfNeeded okta (Some session)
         (world (T0 + 5) (Response 200 body_empty_object None))).1
      = Returns (true, None, Some st')
      ∧ AccessToken st' = ""
      ∧ ExpiresOn st' = Truncate (T0 + 5) Second.
Proof.
  assert (refresh_due session (world (T0 + 5) (Response 200 body_empty_object None)))
    as Hdue by (split; [by vm_compute | done]).
  split; [exact Hdue|].
  assert (token_request okta (RefreshToken session) = Some sample_token_request)
    as Hreq by reflexivity.
  destruct (refresh_success_without_fields okta session _ sample_token_request
              body_empty_object [] Hdue Hreq eq_refl eq_refl eq_refl)
    as (st' & Hres & _ & Htok & Hexp).
  exists st'. split; [exact Hres|]. split; [by apply Htok|by apply Hexp].
Defined.

(** C10 as stated fails in two ways.  An object without [access_token]
    whose [expires_in] is a string is no success: the type error is
    returned and the session is kept.  And for the empty object the new
    expiry is not the reading of the clock (1000.250000005 s) but that
    reading truncated to the second. *)
Lemma refresh_without_fields_is_no_success :
  (json_scan body_expires_soon = inl (JObject [("expires_in", JString "soon")])
   ∧ lacks fieldAccessToken [("expires_in", JString "soon")] = true
   ∧ (RefreshSessionIfNeeded okta (Some session)
        (world (T0 + 5) (Response 200 body_expires_soon None))).1
     = Returns (false, Some (UnmarshalTypeError "string" "int64"), Some session))
  ∧ (clock (world (T0 + 5) (Response 200 body_empty_object None)) 1 = 1000250000005
     ∧ (RefreshSessionIfNeeded okta (Some session)
          (world (T0 + 5) (Response 200 body_empty_object None))).1
       = Returns (true, None, Some (mkSessionState "" 1000000000000 "refresh-1"))).
Proof. repeat split; vm_compute; reflexivity. Qed.

End OktaFacts.

(** ** Properties of the logging handler *)

Module LoggingFacts.
Import Http Url Logging.
Local Open Scope go_scope.

(** *** Header maps *)

Lemma Get_Del_eq (h : Header) (key : string) : Get (Del h key) key = "".
Proof. unfold Get, Del. by rewrite lookup_delete_eq. Qed.

Lemma Get_Del_ne (h : Header) (key key' : string) :
  CanonicalMIMEHeaderKey key ≠ CanonicalMIMEHeaderKey key' →
  Get (Del h key) key' = Get h key'.
Proof. intros Hne. unfold Get, Del. by rewrite lookup_delete_ne. Qed.

Lemma GAP_keys_differ :
  CanonicalMIMEHeaderKey "GAP-Upstream-Address" ≠ CanonicalMIMEHeaderKey "GAP-Auth".
Proof. by vm_compute. Qed.

(** The value a header has for the logger: the new one when it is not
    empty, the one recorded before otherwise. *)
Definition recorded (value before : string) : string :=
  if bool_decide (value ≠ "") then value else before.

(** The header map with the two headers deleted where their first value
    is not empty. *)
Definition stripped (h : Header) : Header :=
  let h1 := if bool_decide (Get h "GAP-Upstream-Address" ≠ "")
            then Del h "GAP-Upstream-Address" else h in
  if bool_decide (Get h "GAP-Auth" ≠ "") then Del h1 "GAP-Auth" else h1.

Lemma stripped_clean (h : Header) :
  Get (stripped h) "GAP-Auth" = "" ∧ Get (stripped h) "GAP-Upstream-Address" = "".
Proof.
  unfold stripped. pose proof GAP_keys_differ as Hne.
  repeat case_bool_decide;
    rewrite ?Get_Del_eq, ?(Get_Del_ne _ "GAP-Auth" "GAP-Upstream-Address"),
      ?Get_Del_eq, ?(Get_Del_ne _ "GAP-Upstream-Address" "GAP-Auth") by done;
    split; try done; try (by destruct (decide (Get h "GAP-Auth" = "")));
    by destruct (decide (Get h "GAP-Upstream-Address" = "")).
Qed.

Lemma stripped_id (h : Header) :
  Get h "GAP-Auth" = "" → Get h "GAP-Upstream-Address" = "" → stripped h = h.
Proof.
  intros Ha Hu. unfold stripped. by rewrite Ha, Hu, !bool_decide_eq_false_2 by (by intros []).
Qed.

Lemma stripped_other (h : Header) (key : string) :
  key ≠ CanonicalMIMEHeaderKey "GAP-Auth" →
  key ≠ CanonicalMIMEHeaderKey "GAP-Upstream-Address" →
  stripped h !! key = h !! key.
Proof.
  intros Ha Hu. unfold stripped, Del.
  repeat case_bool_decide; by rewrite ?lookup_delete_ne by done.
Qed.

(** [ExtractGAPMetadata] in one step. *)
Lemma ExtractGAPMetadata_eq (l : responseLogger) :
  ExtractGAPMetadata l
  = mkResponseLogger
      (mkResponseWriter (stripped (Header_of l)) (wrote (w l)) (written (w l)))
      (status l) (size l)
      (recorded (Get (Header_of l) "GAP-Upstream-Address") (upstream l))
      (recorded (Get (Header_of l) "GAP-Auth") (authInfo l)).
Proof.
  destruct l as [[h wr body] st sz up au].
  unfold ExtractGAPMetadata, stripped, recorded, Header_of, with_header.
  cbn [w header wrote written status size upstream authInfo].
  pose proof GAP_keys_differ as Hne.
  destruct (bool_decide (Get h "GAP-Upstream-Address" ≠ "")) eqn:Hu;
    cbn [w header wrote written status size upstream authInfo];
    rewrite ?(Get_Del_ne _ "GAP-Upstream-Address" "GAP-Auth") by done;
    by destruct (bool_decide (Get h "GAP-Auth" ≠ "")).
Qed.

(** *** One run of the wrapped handler *)

(** The calls that write the status or the body. *)
Definition is_write (c : call) : Prop :=
  match c with
  | CallHeader _ => False
  | CallWrite _ | CallWriteHeader _ => True
  end.

(** The calls that change the header map. *)
Definition is_header_update (c : call) : Prop :=
  match c with
  | CallHeader _ => True
  | CallWrite _ | CallWriteHeader _ => False
  end.

(** The header map after a run of calls that only change it. *)
Definition updated (h : Header) (calls : list call) : Header :=
  foldl (λ h c, match c with CallHeader update => update h | _ => h end) h calls.

(** What of a logger decides the response's headers and the log line's
    two fields. *)
Definition metadata (l : responseLogger) : Header * option (Z * Header) * string * string :=
  (Header_of l, wrote (w l), upstream l, authInfo l).

Lemma serve_header_updates (calls : list call) (l : responseLogger) :
  Forall is_header_update calls →
  metadata (foldl serve_call l calls)
  = (updated (Header_of l) calls, wrote (w l), upstream l, authInfo l).
Proof.
  revert l. induction calls as [|c calls IH]; intros l Hall; [done|].
  apply Forall_cons in Hall as [Hc Hall]. destruct c as [update| |]; try done.
  cbn [foldl updated serve_call]. by rewrite IH.
Qed.

(** The first write sends the stripped headers and records the values. *)
Lemma serve_first_write (l : responseLogger) (c : call) :
  is_write c →
  wrote (w l) = None →
  ∃ s, metadata (serve_call l c)
       = (stripped (Header_of l), Some (s, stripped (Header_of l)),
          recorded (Get (Header_of l) "GAP-Upstream-Address") (upstream l),
          recorded (Get (Header_of l) "GAP-Auth") (authInfo l)).
Proof.
  intros Hc Hw. destruct c as [update|b|s]; [done| |].
  - exists 200. unfold serve_call, Write, metadata, Header_of.
    destruct (bool_decide (status l = 0));
      rewrite ExtractGAPMetadata_eq; unfold w_Write, w_WriteHeader, Header_of;
      cbn [w header wrote written status size upstream authInfo fst snd];
      by rewrite Hw.
  - exists s. unfold serve_call, WriteHeader, metadata, Header_of.
    rewrite ExtractGAPMetadata_eq. unfold w_WriteHeader, Header_of.
    cbn [w header wrote written status size upstream authInfo]. by rewrite Hw.
Qed.

(** A later write on stripped headers changes nothing of this. *)
Lemma serve_later_write (l : responseLogger) (c : call) (sent : Z * Header) :
  is_write c →
  wrote (w l) = Some sent →
  Get (Header_of l) "GAP-Auth" = "" →
  Get (Header_of l) "GAP-Upstream-Address" = "" →
  metadata (serve_call l c) = metadata l.
Proof.
  intros Hc Hw Ha Hu. destruct c as [update|b|s]; [done| |].
  - unfold serve_call, Write, metadata, Header_of.
    destruct (bool_decide (status l = 0));
      rewrite ExtractGAPMetadata_eq; unfold w_Write, w_WriteHeader, Header_of;
      cbn [w header wrote written status size upstream authInfo fst snd];
      unfold Header_of in Ha, Hu;
      rewrite Hw, Ha, Hu, stripped_id by done; reflexivity.
  - unfold serve_call, WriteHeader, metadata, Header_of.
    rewrite ExtractGAPMetadata_eq. unfold w_WriteHeader, Header_of.
    cbn [w header wrote written status size upstream authInfo].
    unfold Header_of in Ha, Hu.
    rewrite Hw, Ha, Hu, stripped_id by done. reflexivity.
Qed.

Lemma serve_later_writes (calls : list call) (l : responseLogger) (sent : Z * Header) :
  Forall is_write calls →
  wrote (w l) = Some sent →
  Get (Header_of l) "GAP-Auth" = "" →
  Get (Header_of l) "GAP-Upstream-Address" = "" →
  metadata (foldl serve_call l calls) = metadata l.
Proof.
  revert l. induction calls as [|c calls IH]; intros l Hall Hw Ha Hu; [done|].
  apply Forall_cons in Hall as [Hc Hall].
  pose proof (serve_later_write l c sent Hc Hw Ha Hu) as Hstep.
  cbn [foldl]. rewrite <- Hstep.
  unfold metadata in Hstep. injection Hstep as Hh Hwr _ _.
  apply (IH _ Hall); [by rewrite Hwr | by rewrite Hh | by rewrite Hh].
Qed.

(** The logger after a handler that first sets headers and then writes. *)
Lemma serve_set_then_write (w0 : ResponseWriter) (pre : list call) (c : call)
    (writes : list call) :
  wrote w0 = None →
  Forall is_header_update pre → is_write c → Forall is_write writes →
  ∃ s, metadata (serve (pre ++ c :: writes) w0)
       = (stripped (updated (header w0) pre),
          Some (s, stripped (updated (header w0) pre)),
          recorded (Get (updated (header w0) pre) "GAP-Upstream-Address") "",
          recorded (Get (updated (header w0) pre) "GAP-Auth") "").
Proof.
  intros Hw0 Hpre Hc Hwrites. unfold serve. rewrite foldl_app. cbn [foldl].
  pose proof (serve_header_updates pre (mkResponseLogger w0 0 0 "" "") Hpre) as Hl1.
  change (Header_of (mkResponseLogger w0 0 0 "" "")) with (header w0) in Hl1.
  cbn [w wrote upstream authInfo] in Hl1.
  set (l1 := foldl serve_call (mkResponseLogger w0 0 0 "" "") pre) in *.
  unfold metadata in Hl1. injection Hl1 as Hh1 Hw1 Hu1 Ha1.
  destruct (serve_first_write l1 c Hc) as [s Hl2]; [by rewrite Hw1|].
  rewrite Hh1, Hu1, Ha1 in Hl2.
  exists s. rewrite <- Hl2.
  unfold metadata in Hl2. injection Hl2 as Hh2 Hw2 _ _.
  destruct (stripped_clean (updated (header w0) pre)) as [Hca Hcu].
  apply (serve_later_writes writes _ _ Hwrites Hw2); by rewrite Hh2.
Qed.

(** The headers that were sent carry neither value. *)
Definition sent_clean (l : responseLogger) : Prop :=
  ∀ s hs, wrote (w l) = Some (s, hs) →
          Get hs "GAP-Auth" = "" ∧ Get hs "GAP-Upstream-Address" = "".

Lemma serve_call_sent_clean (l : responseLogger) (c : call) :
  sent_clean l → sent_clean (serve_call l c).
Proof.
  intros Hl. destruct (wrote (w l)) as [sent|] eqn:Hw.
  - assert (wrote (w (serve_call l c)) = wrote (w l)) as Hsame.
    { destruct c as [update|b|s]; [done| |].
      - unfold serve_call, Write.
        destruct (bool_decide (status l = 0));
          rewrite ExtractGAPMetadata_eq; unfold w_Write, w_WriteHeader;
          cbn [w header wrote written status size upstream authInfo fst snd];
          by rewrite Hw.
      - unfold serve_call, WriteHeader. rewrite ExtractGAPMetadata_eq.
        unfold w_WriteHeader. cbn [w header wrote written]. by rewrite Hw. }
    unfold sent_clean. rewrite Hsame. exact Hl.
  - destruct c as [update|b|s].
    + unfold sent_clean. cbn [serve_call with_header w wrote]. by rewrite Hw.
    + destruct (serve_first_write l (CallWrite b) I Hw) as [s' Hmeta].
      pose proof (f_equal (λ m, m.1.1.2) Hmeta) as Hwr. cbn [metadata fst snd] in Hwr.
      unfold sent_clean. rewrite Hwr. intros s hs [= _ <-]. apply stripped_clean.
    + destruct (serve_first_write l (CallWriteHeader s) I Hw) as [s' Hmeta].
      pose proof (f_equal (λ m, m.1.1.2) Hmeta) as Hwr. cbn [metadata fst snd] in Hwr.
      unfold sent_clean. rewrite Hwr. intros s0 hs [= _ <-]. apply stripped_clean.
Qed.

Lemma serve_sent_clean (calls : list call) (w0 : ResponseWriter) :
  wrote w0 = None → sent_clean (serve calls w0).
Proof.
  intros Hw0. unfold serve.
  assert (sent_clean (mkResponseLogger w0 0 0 "" "")) as Hinit
    by (unfold sent_clean; cbn [w]; by rewrite Hw0).
  revert Hinit. generalize (mkResponseLogger w0 0 0 "" "").
  induction calls as [|c calls IH]; intros l Hl; [done|].
  cbn [foldl]. by apply IH, serve_call_sent_clean.
Qed.

Lemma recorded_first (value : string) : recorded value "" = value.
Proof. unfold recorded. case_bool_decide as Hv; [done|]. by destruct (decide (value = "")). Qed.

Section WithLib.
Context `{Lib}.

(** *** The log line *)

Lemma logMessage_Upstream (username upstream : string) (req : Request)
    (body : string) (url : URL) (ts : Time) (status size : Z) (now : Time) :
  Upstream (logMessage username upstream req body url ts status size now)
  = (if bool_decide (upstream = "") then "-" else upstream).
Proof. reflexivity. Qed.

Lemma logMessage_Username (username upstream : string) (req : Request)
    (body : string) (url : URL) (ts : Time) (status size : Z) (now : Time) :
  Username (logMessage username upstream req body url ts status size now)
  = (if bool_decide (username = "" ∨ username = "-") then
       if bool_decide (Url.Username (User url) ≠ "") then Url.Username (User url)
       else "-"
     else username).
Proof.
  unfold logMessage. cbn [Username].
  destruct (decide (username = "")) as [->|Hne].
  - rewrite (bool_decide_eq_true_2 ("" = "")) by done.
    rewrite (bool_decide_eq_true_2 (_ ∨ _)) by (by left).
    rewrite (bool_decide_eq_true_2 ("-" = "-")) by done.
    destruct (User url) as [ui|]; cbn [Url.Username].
    + rewrite (bool_decide_eq_true_2 (Some ui ≠ None)) by done. done.
    + rewrite (bool_decide_eq_false_2 (None ≠ None)) by (by intros []).
      by rewrite (bool_decide_eq_false_2 ("" ≠ "")) by (by intros []).
  - rewrite (bool_decide_eq_false_2 (username = "")) by done.
    destruct (decide (username = "-")) as [->|Hne'].
    + rewrite (bool_decide_eq_true_2 (_ ∨ _)) by (by right).
      rewrite (bool_decide_eq_true_2 ("-" = "-")) by done.
      destruct (User url) as [ui|]; cbn [Url.Username].
      * rewrite (bool_decide_eq_true_2 (Some ui ≠ None)) by done. done.
      * rewrite (bool_decide_eq_false_2 (None ≠ None)) by (by intros []).
        by rewrite (bool_decide_eq_false_2 ("" ≠ "")) by (by intros []).
    + rewrite (bool_decide_eq_false_2 (_ ∨ _)) by (by intros [|]).
      rewrite (bool_decide_eq_false_2 (username = "-")) by done.
      by rewrite andb_false_r.
Qed.

(** C9, as amended.  Let logging be enabled and the response not yet be
    written.  Whatever the handler does, the headers that a write through
    the logger sends to the client have no non-empty first value of
    [GAP-Auth] or [GAP-Upstream-Address].  The line written to the log has,
    as [Upstream], the upstream value the logger recorded, or [-] when
    there is none, and as [Username] the [GAP-Auth] value it recorded,
    unless that is empty or [-]: then it is the user name of the request
    URL, or [-] when there is none.  For a handler that first sets headers
    and then writes the status or the body, the recorded values are the
    first values of the two headers, and the headers sent are the
    handler's without these two (where their first value is not empty). *)
Theorem gap_metadata_stripped_and_logged (h : loggingHandler) (w0 : ResponseWriter)
    (req : Request) (world : World) :
  enabled h = true →
  wrote w0 = None →
  let calls := (handler h (read_body h req).2).1 in
  let l := serve calls w0 in
  let name := Url.Username (User (ReqURL req)) in
  ∃ data,
    (ServeHTTP h w0 req world).1 = Returns (w l)
    ∧ (∀ s hs, wrote (w l) = Some (s, hs) →
               Get hs "GAP-Auth" = "" ∧ Get hs "GAP-Upstream-Address" = "")
    ∧ out (ServeHTTP h w0 req world).2
      = (out world +:+ template_Execute (logTemplate h) data) +:+ String newline ""
    ∧ Upstream data = (if bool_decide (upstream l = "") then "-" else upstream l)
    ∧ Username data
      = (if bool_decide (authInfo l = "" ∨ authInfo l = "-") then
           if bool_decide (name ≠ "") then name else "-"
         else authInfo l)
    ∧ ∀ pre c writes,
        calls = pre ++ c :: writes →
        Forall is_header_update pre → is_write c → Forall is_write writes →
        (∃ s, wrote (w l) = Some (s, stripped (updated (header w0) pre)))
        ∧ (∀ key, key ≠ "Gap-Auth" → key ≠ "Gap-Upstream-Address" →
                  stripped (updated (header w0) pre) !! key
                  = updated (header w0) pre !! key)
        ∧ upstream l = Get (updated (header w0) pre) "GAP-Upstream-Address"
        ∧ authInfo l = Get (updated (header w0) pre) "GAP-Auth".
Proof.
  intros Hen Hw0 calls l name.
  unfold ServeHTTP, bind, time_Now, writeLogLine, bind, time_Now, writer_Write, ret.
  subst calls l. destruct (read_body h req) as [body req1]. cbn [snd].
  destruct (handler h req1) as [calls req2]. cbn [fst].
  rewrite Hen. cbn [negb fst snd out clock reads].
  eexists. split; [reflexivity|].
  split; [apply (serve_sent_clean calls w0 Hw0)|].
  split; [reflexivity|].
  split; [apply logMessage_Upstream|].
  split; [apply logMessage_Username|].
  intros pre c writes -> Hpre Hc Hwrites.
  destruct (serve_set_then_write w0 pre c writes Hw0 Hpre Hc Hwrites) as [s Hmeta].
  rewrite !recorded_first in Hmeta.
  unfold metadata, Header_of in Hmeta. injection Hmeta as Hh Hwr Hup Hauth.
  split; [by exists s|]. split; [|done].
  intros key Ha Hu. by apply stripped_other.
Qed.

(** With logging disabled [ServeHTTP] runs the handler on the logger and
    writes no log line: the clock is read once and the log's writer is left
    alone, while the headers sent are stripped all the same. *)
Theorem ServeHTTP_disabled (h : loggingHandler) (w0 : ResponseWriter)
    (req : Request) (world : World) :
  enabled h = false →
  wrote w0 = None →
  let l := serve (handler h req).1 w0 in
  ServeHTTP h w0 req world
  = (Returns (w l), mkWorld (clock world) (S (reads world)) (out world))
  ∧ ∀ s hs, wrote (w l) = Some (s, hs) →
            Get hs "GAP-Auth" = "" ∧ Get hs "GAP-Upstream-Address" = "".
Proof.
  intros Hen Hw0 l. split; [|apply (serve_sent_clean _ w0 Hw0)].
  unfold ServeHTTP, bind, time_Now, ret, read_body. subst l.
  rewrite Hen. cbn [andb negb]. by destruct (handler h req) as [calls req2].
Qed.

End WithLib.

(** *** The theorem at concrete inputs *)

Import Samples.
#[local] Existing Instance logging_lib.

Definition upstream_address : string := "http://10.1.1.1:8080".

(** A handler that sets both headers, then writes status and body. *)
Definition set_both : call :=
  CallHeader (λ h, Set_ (Set_ h "GAP-Auth" "alice") "GAP-Upstream-Address"
                     upstream_address).
Definition sets_then_writes : loggingHandler :=
  mkLoggingHandler (calling [set_both; CallWriteHeader 200; CallWrite "hello"])
    true false tt.

(** A handler that sets [GAP-Auth] and returns without writing. *)
Definition sets_and_returns : loggingHandler :=
  mkLoggingHandler (calling [CallHeader (λ h, Set_ h "GAP-Auth" "alice")])
    true false tt.

(** A handler that sets [GAP-Upstream-Address] only, then writes. *)
Definition sets_upstream_only : loggingHandler :=
  mkLoggingHandler
    (calling [CallHeader (λ h, Set_ h "GAP-Upstream-Address" upstream_address);
              CallWriteHeader 200])
    true false tt.

(** The first of these handlers with logging disabled. *)
Definition sets_then_writes_unlogged : loggingHandler :=
  mkLoggingHandler (calling [set_both; CallWriteHeader 200; CallWrite "hello"])
    false false tt.

(** C9 at a concrete input: both headers set, then status and body. *)
Lemma gap_metadata_stripped_and_logged_witness :
  enabled sets_then_writes = true
  ∧ wrote fresh = None
  ∧ ∃ data,
      (ServeHTTP sets_then_writes fresh (request None) log_world).1
      = Returns (mkResponseWriter ∅ (Some (200, ∅)) "hello")
      ∧ out (ServeHTTP sets_then_writes fresh (request None) log_world).2
        = execute_default data +:+ String newline ""
      ∧ Upstream data = upstream_address
      ∧ Username data = "alice".
Proof.
  split; [reflexivity|]. split; [reflexivity|].
  destruct (gap_metadata_stripped_and_logged sets_then_writes fresh (request None)
              log_world eq_refl eq_refl)
    as (data & Hres & _ & Hout & Hup & Hname & _).
  exists data. split; [|split; [exact Hout|split; [exact Hup|exact Hname]]].
  rewrite Hres. vm_compute. reflexivity.
Defined.

(** C9 as stated fails in two ways.  A handler that sets [GAP-Auth] and
    returns without writing: the header stays in the map, the server sends
    it with the response, and the log line has [-] as user name.  And a
    handler that sets [GAP-Upstream-Address] only, on a request whose URL
    carries the user name [bob]: the value of [GAP-Auth] is empty, and the
    log line has [bob], not [-], as user name. *)
Lemma gap_metadata_kept_or_replaced :
  ((ServeHTTP sets_and_returns fresh (request None) log_world).1
   = Returns (mkResponseWriter {["Gap-Auth" := ["alice"]]} None "")
   ∧ wrote (finishRequest (mkResponseWriter {["Gap-Auth" := ["alice"]]} None ""))
     = Some (200, {["Gap-Auth" := ["alice"]]})
   ∧ out (ServeHTTP sets_and_returns fresh (request None) log_world).2
     = template_Execute tt
         (logMessage "" "" (request None) "" (ReqURL (request None))
            5000000000 0 0 5000000000)
       +:+ String newline ""
   ∧ Username (logMessage "" "" (request None) "" (ReqURL (request None))
                 5000000000 0 0 5000000000) = "-")
  ∧ out (ServeHTTP sets_upstream_only fresh (request (Some bob)) log_world).2
    = template_Execute tt
        (logMessage "" upstream_address (request (Some bob)) ""
           (ReqURL (request (Some bob))) 5000000000 200 0 5000000000)
      +:+ String newline ""
  ∧ Username (logMessage "" upstream_address (request (Some bob)) ""
                (ReqURL (request (Some bob))) 5000000000 200 0 5000000000) = "bob".
Proof. repeat split; vm_compute; reflexivity. Qed.

(** [ServeHTTP] with logging disabled, at a concrete input. *)
Lemma ServeHTTP_disabled_witness :
  enabled sets_then_writes_unlogged = false
  ∧ ServeHTTP sets_then_writes_unlogged fresh (request None) log_world
    = (Returns (mkResponseWriter ∅ (Some (200, ∅)) "hello"),
       mkWorld (clock log_world) 1 "").
Proof.
  split; [reflexivity|].
  rewrite (proj1 (ServeHTTP_disabled sets_then_writes_unlogged fresh (request None)
                    log_world eq_refl eq_refl)).
  vm_compute. reflexivity.
Defined.

End LoggingFacts.

(** ** Further properties of the Okta provider *)

Module OktaMore.
Import Http Url Providers OktaFacts.
Local Open Scope go_scope.

Section WithLib.
Context `{Lib}.

(** *** The outcomes of a refresh *)

(** The three ways [redeemRefreshToken] ends: a nil token URL is
    dereferenced before anything is sent; a token URL that does not parse
    gives the error of the parse and nothing is sent; otherwise the request
    is sent. *)
Lemma redeemRefreshToken_cases (p : ProviderData) (tok : string) (w : World) :
  (RedeemURL p = None
   ∧ redeemRefreshToken p tok w = (Panics nil_dereference, w))
  ∨ (∃ u err, RedeemURL p = Some u
              ∧ url_Parse (URL_String u) = inr err
              ∧ redeemRefreshToken p tok w = (Returns ("", 0, Some err), w))
  ∨ (∃ req, token_request p tok = Some req
            ∧ RedeemURL p ≠ None
            ∧ (redeemRefreshToken p tok w).2 = sending req w).
Proof.
  destruct (RedeemURL p) as [u|] eqn:Hu.
  - destruct (url_Parse (URL_String u)) as [u'|err] eqn:Hparse.
    + right. right.
      assert (∃ req, token_request p tok = Some req) as [req Hreq]
        by (unfold token_request; rewrite Hu, Hparse; by eexists).
      exists req. split; [done|]. split; [done|].
      by destruct (redeemRefreshToken_sent p tok req w Hreq) as (? & _ & ->).
    + right. left. exists u, err. split; [done|]. split; [done|].
      unfold redeemRefreshToken, http_NewRequest, bind, String_of, ret.
      by rewrite Hu, Hparse.
  - left. split; [done|].
    unfold redeemRefreshToken, bind, String_of, panic. by rewrite Hu.
Qed.

(** [RefreshSessionIfNeeded] panics exactly when a refresh is due and the
    token URL is nil.  When it returns, [refreshed] and an error exclude
    each other, a session that was not refreshed is the session passed in,
    and the refresh token is never changed.  It sends at most one request
    and reads the clock at most twice. *)
Theorem refresh_outcomes (p : ProviderData) (s : option SessionState) (w : World) :
  match (RefreshSessionIfNeeded p s w).1 with
  | Panics _ => ∃ st, s = Some st ∧ refresh_due st w ∧ RedeemURL p = None
  | Returns (refreshed, err, s') =>
      (refreshed = true → err = None)
      ∧ (refreshed = false → s' = s)
      ∧ RefreshToken <$> s' = RefreshToken <$> s
      ∧ ¬ (∃ st, s = Some st ∧ refresh_due st w ∧ RedeemURL p = None)
  end
  ∧ (length (sent (RefreshSessionIfNeeded p s w).2) ≤ length (sent w) + 1)%nat
  ∧ (reads (RefreshSessionIfNeeded p s w).2 ≤ reads w + 2)%nat.
Proof.
  destruct s as [st|].
  2:{ cbn. split; [|split; lia]. repeat split; try done. by intros (st & [=] & _). }
  destruct (After (ExpiresOn st) (now w) || bool_decide (RefreshToken st = "")) eqn:Hskip.
  - rewrite RefreshSessionIfNeeded_skip by done. cbn [fst snd ticked sent reads].
    split; [|split; lia]. repeat split; try done.
    intros (st' & [= <-] & [Hexp Htok] & _).
    apply orb_true_iff in Hskip as [Hafter|Hempty].
    + unfold After in Hafter. lia.
    + by apply bool_decide_eq_true_1 in Hempty.
  - apply orb_false_iff in Hskip as [Hafter Htok].
    assert (refresh_due st w) as Hdue.
    { split; [unfold After in Hafter; lia|by apply bool_decide_eq_false_1 in Htok]. }
    rewrite RefreshSessionIfNeeded_due by done.
    destruct (redeemRefreshToken_cases p (RefreshToken st) (ticked w))
      as [[Hu ->]|[(u & err & Hu & _ & ->)|(req & Hreq & Hu & Hsent)]].
    + cbn [fst snd ticked sent reads]. split; [|split; lia]. by exists st.
    + cbn [fst snd ticked sent reads]. split; [|split; lia].
      repeat split; try done. intros (st' & _ & _ & Hnil). congruence.
    + destruct (redeemRefreshToken p (RefreshToken st) (ticked w))
        as [[[[tok d] [e|]]|m] w'] eqn:Hredeem; cbn [snd] in Hsent; subst w'.
      * cbn [fst snd sending ticked sent reads]. rewrite length_app. cbn [length].
        split; [|split; lia]. repeat split; try done.
        intros (st' & _ & _ & Hnil). congruence.
      * cbn [fst snd sending ticked logging sent reads]. rewrite length_app.
        cbn [length]. split; [|split; lia]. repeat split; try done.
        intros (st' & _ & _ & Hnil). congruence.
      * destruct (redeemRefreshToken_sent p _ req (ticked w) Hreq) as (? & _ & Heq).
        rewrite Heq in Hredeem. done.
Qed.

(** [redeemRefreshToken] never returns a token or a lifetime together
    with an error: on every failure the token is empty and the lifetime 0.
    It sends at most one request, does not read the clock and logs
    nothing. *)
Theorem redeemRefreshToken_error_has_no_token (p : ProviderData) (tok : string)
    (w : World) :
  (∀ token expires err,
     (redeemRefreshToken p tok w).1 = Returns (token, expires, Some err) →
     token = "" ∧ expires = 0)
  ∧ (length (sent (redeemRefreshToken p tok w).2) ≤ length (sent w) + 1)%nat
  ∧ reads (redeemRefreshToken p tok w).2 = reads w
  ∧ logged (redeemRefreshToken p tok w).2 = logged w.
Proof.
  destruct (redeemRefreshToken_cases p tok w)
    as [[_ ->]|[(u & err & _ & _ & ->)|(req & Hreq & _ & _)]].
  - cbn. split; [done|]. split; [lia|done].
  - cbn. split; [by intros ? ? ? [= <- <- _]|]. split; [lia|done].
  - destruct (redeemRefreshToken_sent p tok req w Hreq) as (u & _ & ->).
    cbn [fst snd sending sent reads logged]. rewrite length_app. cbn [length].
    split; [|split; [lia|done]].
    intros token expires err.
    destruct (network w req) as [e|sc b [e|]]; try by intros [= <- <- _].
    destruct (bool_decide (sc ≠ 200)); [by intros [= <- <- _]|].
    destruct (json_Unmarshal b) as [d [e|]]; [by intros [= <- <- _]|done].
Qed.

(** *** Providers with defaulted endpoints *)

Lemma defaulted_is_set (domain path : string) (u : option URL) :
  defaulted domain path u ≠ None.
Proof.
  pose proof (defaulted_set domain path u) as Hset.
  by destruct (defaulted domain path u).
Qed.

Lemma defaulted_twice (domain domain' path : string) (u : option URL) :
  defaulted domain' path (defaulted domain path u) = defaulted domain path u.
Proof. unfold defaulted at 1. by rewrite defaulted_set. Qed.

(** Once the endpoints are defaulted, a later call of [SetOktaDomain]
    changes nothing, whatever domain it is given: the first domain
    stays. *)
Theorem SetOktaDomain_first_domain_stays (domain domain' : string) (p : ProviderData) :
  SetOktaDomain domain' (SetOktaDomain domain p) = SetOktaDomain domain p.
Proof.
  rewrite !SetOktaDomain_fields.
  cbn [LoginURL RedeemURL ValidateURL ProviderName ClientID ClientSecret Scope].
  by rewrite !defaulted_twice.
Qed.

Lemma RefreshSessionIfNeeded_returns (p : ProviderData) (s : option SessionState)
    (w : World) :
  RedeemURL p ≠ None → ∃ r, (RefreshSessionIfNeeded p s w).1 = Returns r.
Proof.
  intros Hu. destruct s as [st|]; [|by eexists].
  unfold RefreshSessionIfNeeded, bind, time_Now.
  destruct (After _ _ || _); [by eexists|].
  destruct (redeemRefreshToken_cases p (RefreshToken st)
              (mkWorld (clock w) (S (reads w)) (network w) (sent w) (logged w)))
    as [[Hnil _]|[(u & err & _ & _ & ->)|(req & Hreq & _ & _)]]; [done|by eexists|].
  destruct (redeemRefreshToken_sent p _ req
              (mkWorld (clock w) (S (reads w)) (network w) (sent w) (logged w)) Hreq)
    as (u & _ & ->).
  destruct (network _ req) as [e|sc b [e|]]; try by eexists.
  destruct (bool_decide (sc ≠ 200)); [by eexists|].
  destruct (json_Unmarshal b) as [d [e|]]; by eexists.
Qed.

Lemma userinfo_returns (p : ProviderData) (st : SessionState) (w : World) :
  ValidateURL p ≠ None →
  (∃ r, (GetEmailAddress p (Some st) w).1 = Returns r)
  ∧ (∃ r, (GetUserName p (Some st) w).1 = Returns r).
Proof.
  intros Hu. unfold GetEmailAddress, GetUserName, http_NewRequest, AccessToken_of,
    String_of, api_Request, bind, ret, http_Do, log_Printf.
  destruct (ValidateURL p) as [u|]; [|done].
  destruct (url_Parse (URL_String u)) as [u'|e]; [|split; by eexists].
  cbn [Method ReqURL ReqHeader ReqBody network].
  generalize (getOktaHeader (AccessToken st)). intros hdr.
  destruct (network w (mkRequest "GET" u' hdr "")) as [e|sc b [e|]];
    try (split; by eexists).
  destruct (bool_decide (sc ≠ 200)); [split; by eexists|].
  destruct (json_scan b); split; by eexists.
Qed.

(** A provider whose endpoints went through [SetOktaDomain] never panics
    on a nil URL: [RefreshSessionIfNeeded] returns for every session, nil
    included, and the two userinfo getters return for every non-nil
    session. *)
Theorem defaulted_provider_returns (domain : string) (p : ProviderData)
    (s : option SessionState) (st : SessionState) (w : World) :
  (∃ r, (RefreshSessionIfNeeded (SetOktaDomain domain p) s w).1 = Returns r)
  ∧ (∃ r, (GetEmailAddress (SetOktaDomain domain p) (Some st) w).1 = Returns r)
  ∧ (∃ r, (GetUserName (SetOktaDomain domain p) (Some st) w).1 = Returns r).
Proof.
  split.
  - apply RefreshSessionIfNeeded_returns. rewrite SetOktaDomain_fields.
    apply defaulted_is_set.
  - apply userinfo_returns. rewrite SetOktaDomain_fields. apply defaulted_is_set.
Qed.

(** [NewOktaProvider] is idempotent, leaves the provider with a scope, and
    commutes with [SetOktaDomain]. *)
Theorem NewOktaProvider_idempotent (domain : string) (p : ProviderData) :
  NewOktaProvider (NewOktaProvider p) = NewOktaProvider p
  ∧ (Scope p ≠ "" → Scope (NewOktaProvider p) = Scope p)
  ∧ Scope (NewOktaProvider p) ≠ ""
  ∧ SetOktaDomain domain (NewOktaProvider p) = NewOktaProvider (SetOktaDomain domain p).
Proof.
  rewrite !NewOktaProvider_defaults, !SetOktaDomain_fields.
  cbn [LoginURL RedeemURL ValidateURL ProviderName ClientID ClientSecret Scope].
  repeat split.
  - f_equal. case_bool_decide as Hs; [|done]. by case_bool_decide.
  - intros Hs. by rewrite bool_decide_eq_false_2.
  - by case_bool_decide.
Qed.

(** *** One refresh after another *)

(** What a refresh comes to when the exchange delivers status 200 and a
    body that does not decode. *)
Lemma RefreshSessionIfNeeded_undecoded (p : ProviderData) (st : SessionState)
    (w : World) (req : Request) (body : string) (data : tokenData) (err : error) :
  refresh_due st w →
  token_request p (RefreshToken st) = Some req →
  network w req = Response 200 body None →
  json_Unmarshal body = (data, Some err) →
  (RefreshSessionIfNeeded p (Some st) w).1 = Returns (false, Some err, Some st).
Proof.
  intros Hdue Hreq Hnet Hdec. rewrite RefreshSessionIfNeeded_due by done.
  destruct (redeemRefreshToken_sent p _ req (ticked w) Hreq) as (u & _ & ->).
  change (network (ticked w) req) with (network w req). rewrite Hnet.
  rewrite bool_decide_eq_false_2 by (intros ?; done). by rewrite Hdec.
Qed.


(** After a refresh that committed a lifetime of N >= 1 seconds, a call
    made up to N - 1 seconds after the commit finds the session fresh: it
    returns [(false, nil)] and sends nothing.  (The last second of the
    lifetime may be lost to the truncation.) *)
Theorem refreshed_session_is_fresh (p : ProviderData) (st : SessionState)
    (w w2 : World) (req : Request) (body : string) (data : tokenData) :
  refresh_due st w →
  token_request p (RefreshToken st) = Some req →
  network w req = Response 200 body None →
  json_Unmarshal body = (data, None) →
  1 ≤ data_ExpiresIn data ≤ 9223372036 →
  now w2 ≤ clock w (S (reads w)) + (data_ExpiresIn data - 1) * Second →
  ∃ st',
    (RefreshSessionIfNeeded p (Some st) w).1 = Returns (true, None, Some st')
    ∧ (RefreshSessionIfNeeded p (Some st') w2).1 = Returns (false, None, Some st')
    ∧ sent (RefreshSessionIfNeeded p (Some st') w2).2 = sent w2.
Proof.
  intros Hdue Hreq Hnet Hdec HN Hsoon.
  eexists. split; [exact (RefreshSessionIfNeeded_decoded p st w req body data
                            Hdue Hreq Hnet Hdec)|].
  rewrite RefreshSessionIfNeeded_skip; [done|].
  apply orb_true_iff. left. cbn [ExpiresOn]. unfold After, Add.
  rewrite seconds_exact by lia.
  pose proof (Truncate_Second (clock w (S (reads w)) + data_ExpiresIn data * Second))
    as [_ Hb].
  apply Z.ltb_lt. unfold Second in *. lia.
Qed.


(** A response with status 200 whose body is JSON but no object: for
    [null] the refresh succeeds, with the empty string as access token and
    the clock's reading, truncated, as expiry; for every other value it
    fails with a type error and the session is kept. *)
Theorem refresh_on_non_object_body (p : ProviderData) (st : SessionState)
    (w : World) (req : Request) (body : string) (v : json) :
  refresh_due st w →
  token_request p (RefreshToken st) = Some req →
  network w req = Response 200 body None →
  json_scan body = inl v →
  (∀ members, v ≠ JObject members) →
  (RefreshSessionIfNeeded p (Some st) w).1
  = match v with
    | JNull =>
        Returns (true, None,
                 Some (mkSessionState "" (Truncate (clock w (S (reads w))) Second)
                         (RefreshToken st)))
    | _ => Returns (false, Some (UnmarshalTypeError (kind_of v) "struct"), Some st)
    end.
Proof.
  intros Hdue Hreq Hnet Hscan Hv.
  destruct v as [|b|z|lit|a|elems|members];
    try (apply (RefreshSessionIfNeeded_undecoded p st w req body (mkTokenData "" 0));
         [done|done|done|unfold json_Unmarshal; by rewrite Hscan]).
  - rewrite (RefreshSessionIfNeeded_decoded p st w req body (mkTokenData "" 0));
      [|done|done|done|unfold json_Unmarshal; by rewrite Hscan].
    cbn [data_AccessToken data_ExpiresIn]. unfold Add, seconds.
    change (wrap64 (0 * Second)) with 0. by rewrite Z.add_0_r.
  - by destruct (Hv members).
Qed.

(** *** The userinfo getters *)

(** [GetEmailAddress] and [GetUserName] never return a string together
    with an error: when the error is not nil the string is empty.  Each
    sends at most one request. *)
Theorem userinfo_error_comes_with_empty_string (p : ProviderData)
    (s : option SessionState) (w : World) :
  (∀ a err, (GetEmailAddress p s w).1 = Returns (a, Some err) → a = "")
  ∧ (∀ a err, (GetUserName p s w).1 = Returns (a, Some err) → a = "")
  ∧ (length (sent (GetEmailAddress p s w).2) ≤ length (sent w) + 1)%nat
  ∧ (length (sent (GetUserName p s w).2) ≤ length (sent w) + 1)%nat.
Proof.
  unfold GetEmailAddress, GetUserName, http_NewRequest, AccessToken_of,
    String_of, api_Request, bind, ret, panic, http_Do, log_Printf.
  destruct (ValidateURL p) as [u|]; [|cbn; repeat split; (done || lia)].
  destruct (url_Parse (URL_String u)) as [u'|e];
    [|cbn; repeat split; try lia; by intros a err [= <- _]].
  destruct s as [st|]; [|cbn; repeat split; (done || lia)].
  cbn [Method ReqURL ReqHeader ReqBody network sent].
  generalize (getOktaHeader (AccessToken st)). intros hdr.
  destruct (network w (mkRequest "GET" u' hdr "")) as [e|sc b [e|]];
    cbn [fst snd sent]; rewrite ?length_app; cbn [length];
    try (repeat split; try lia; by intros a err [= <- _]).
  destruct (bool_decide (sc ≠ 200)); cbn [fst snd sent]; rewrite ?length_app;
    cbn [length]; [repeat split; try lia; by intros a err [= <- _]|].
  destruct (json_scan b) as [j|e]; cbn [fst snd sent]; rewrite ?length_app;
    cbn [length]; [|repeat split; try lia; by intros a err [= <- _]].
  repeat split; try lia; intros a err; unfold Json_String;
    destruct (Json_Get j _); by intros [= <- _].
Qed.

End WithLib.

(** *** The theorems at concrete inputs *)

Import Samples.

(** The sample library, whose scanner also reads the text [null]. *)
Definition null_lib : Lib :=
  {| lib_escaping := plain_escaping;
     url_Parse := @url_Parse providers_lib;
     Values_Encode := @Values_Encode providers_lib;
     strconv_Quote := @strconv_Quote providers_lib;
     json_scan := λ text,
       if bool_decide (text = "null") then inl JNull
       else @json_scan providers_lib text;
     equalFold := @equalFold providers_lib |}.

#[local] Existing Instance providers_lib.

(** 3599 seconds after a refresh that committed 3600 seconds. *)
Lemma refreshed_session_is_fresh_witness :
  refresh_due session (world (T0 + 5) (Response 200 body_new123 None))
  ∧ now (world (T0 + 5 + 3599 * Second) (Response 200 body_new123 None))
    ≤ T0 + 5 + (3600 - 1) * Second
  ∧ ∃ st',
      (RefreshSessionIfNeeded okta (Some session)
         (world (T0 + 5) (Response 200 body_new123 None))).1
      = Returns (true, None, Some st')
      ∧ (RefreshSessionIfNeeded okta (Some st')
           (world (T0 + 5 + 3599 * Second) (Response 200 body_new123 None))).1
        = Returns (false, None, Some st').
Proof.
  assert (refresh_due session (world (T0 + 5) (Response 200 body_new123 None))) as Hdue
    by (split; [by vm_compute | done]).
  assert (token_request okta (RefreshToken session) = Some sample_token_request)
    as Hreq by reflexivity.
  assert (json_Unmarshal body_new123 = (mkTokenData "new123" 3600, None)) as Hdec
    by reflexivity.
  split; [exact Hdue|]. split; [by vm_compute|].
  destruct (refreshed_session_is_fresh okta session
              (world (T0 + 5) (Response 200 body_new123 None))
              (world (T0 + 5 + 3599 * Second) (Response 200 body_new123 None))
              sample_token_request body_new123 (mkTokenData "new123" 3600)
              Hdue Hreq eq_refl Hdec ltac:(by vm_compute) ltac:(by vm_compute))
    as (st' & Hfirst & Hsecond & _).
  by exists st'.
Defined.


(** The body [null]. *)
Lemma refresh_on_non_object_body_witness :
  @json_scan null_lib "null" = inl JNull
  ∧ (@RefreshSessionIfNeeded null_lib okta (Some session)
       (world (T0 + 5) (Response 200 "null" None))).1
    = Returns (true, None,
               Some (mkSessionState "" (Truncate (T0 + 5) Second) "refresh-1")).
Proof.
  split; [reflexivity|].
  assert (refresh_due session (world (T0 + 5) (Response 200 "null" None))) as Hdue
    by (split; [by vm_compute | done]).
  assert (@token_request null_lib okta (RefreshToken session)
          = Some sample_token_request) as Hreq by reflexivity.
  exact (@refresh_on_non_object_body null_lib okta session
           (world (T0 + 5) (Response 200 "null" None)) sample_token_request
           "null" JNull Hdue Hreq eq_refl eq_refl ltac:(done)).
Defined.

End OktaMore.

(** ** Further properties of the logging handler *)

Module LoggingMore.
Import Http Url Logging LoggingFacts.
Local Open Scope go_scope.

(** *** [ExtractGAPMetadata] *)

Lemma recorded_empty (before : string) : recorded "" before = before.
Proof. unfold recorded. by rewrite bool_decide_eq_false_2 by (by intros []). Qed.

Lemma stripped_stripped (h : Header) : stripped (stripped h) = stripped h.
Proof. destruct (stripped_clean h). by apply stripped_id. Qed.

(** Extracting twice is extracting once, and extracting touches nothing
    but the two headers and the two recorded values: status, size, what was
    sent and written, and every other header stay as they are. *)
Theorem ExtractGAPMetadata_idempotent (l : responseLogger) :
  ExtractGAPMetadata (ExtractGAPMetadata l) = ExtractGAPMetadata l
  ∧ status (ExtractGAPMetadata l) = status l
  ∧ size (ExtractGAPMetadata l) = size l
  ∧ wrote (w (ExtractGAPMetadata l)) = wrote (w l)
  ∧ written (w (ExtractGAPMetadata l)) = written (w l)
  ∧ ∀ key, key ≠ "Gap-Auth" → key ≠ "Gap-Upstream-Address" →
           Header_of (ExtractGAPMetadata l) !! key = Header_of l !! key.
Proof.
  split.
  - rewrite (ExtractGAPMetadata_eq (ExtractGAPMetadata l)), !ExtractGAPMetadata_eq.
    unfold Header_of. cbn [w header wrote written status size upstream authInfo].
    destruct (stripped_clean (header (w l))) as [-> ->].
    by rewrite stripped_stripped, !recorded_empty.
  - rewrite ExtractGAPMetadata_eq. unfold Header_of.
    cbn [w header wrote written status size]. repeat split.
    intros key Ha Hu. by apply stripped_other.
Qed.

(** A header whose first value is empty is left in the map with all its
    values, and nothing is recorded for it: the values after the first
    reach the client. *)
Theorem empty_first_value_is_kept (l : responseLogger) (c : call)
    (values : list string) :
  Header_of l !! "Gap-Auth" = Some ("" :: values) →
  is_write c →
  wrote (w l) = None →
  authInfo (serve_call l c) = authInfo l
  ∧ ∃ s hs, wrote (w (serve_call l c)) = Some (s, hs)
            ∧ hs !! "Gap-Auth" = Some ("" :: values).
Proof.
  intros Hh Hc Hw.
  assert (Get (Header_of l) "GAP-Auth" = "") as Hget.
  { unfold Get. change (CanonicalMIMEHeaderKey "GAP-Auth") with "Gap-Auth".
    by rewrite Hh. }
  assert (stripped (Header_of l) !! "Gap-Auth" = Some ("" :: values)) as Hkept.
  { unfold stripped. rewrite Hget.
    rewrite (bool_decide_eq_false_2 ("" ≠ "")) by (by intros []).
    case_bool_decide; [|done]. unfold Del.
    change (CanonicalMIMEHeaderKey "GAP-Upstream-Address") with "Gap-Upstream-Address".
    by rewrite lookup_delete_ne. }
  destruct (serve_first_write l c Hc Hw) as [s Hmeta].
  pose proof (f_equal (λ m, m.2) Hmeta) as Hauth.
  pose proof (f_equal (λ m, m.1.1.2) Hmeta) as Hwr.
  cbn [metadata fst snd] in Hauth, Hwr.
  split; [by rewrite Hauth, Hget, recorded_empty|].
  exists s, (stripped (Header_of l)). done.
Qed.

(** *** What the logger keeps over a run of calls *)

(** The body bytes a run of calls writes. *)
Fixpoint payload (calls : list call) : string :=
  match calls with
  | [] => ""
  | CallWrite b :: rest => b +:+ payload rest
  | _ :: rest => payload rest
  end.

Definition is_WriteHeader (c : call) : Prop :=
  match c with
  | CallWriteHeader _ => True
  | CallHeader _ | CallWrite _ => False
  end.

(** One call, field by field. *)
Lemma serve_call_fields (l : responseLogger) (c : call) :
  serve_call l c
  = match c with
    | CallHeader update => with_header l (update (Header_of l))
    | CallWrite b =>
        mkResponseLogger
          (mkResponseWriter (stripped (Header_of l))
             (match wrote (w l) with
              | Some sent => Some sent
              | None => Some (200, stripped (Header_of l))
              end)
             (written (w l) +:+ b))
          (if bool_decide (status l = 0) then 200 else status l)
          (wrap64 (size l + Z.of_nat (String.length b)))
          (recorded (Get (Header_of l) "GAP-Upstream-Address") (upstream l))
          (recorded (Get (Header_of l) "GAP-Auth") (authInfo l))
    | CallWriteHeader s =>
        mkResponseLogger
          (mkResponseWriter (stripped (Header_of l))
             (match wrote (w l) with
              | Some sent => Some sent
              | None => Some (s, stripped (Header_of l))
              end)
             (written (w l)))
          s (size l)
          (recorded (Get (Header_of l) "GAP-Upstream-Address") (upstream l))
          (recorded (Get (Header_of l) "GAP-Auth") (authInfo l))
    end.
Proof.
  destruct c as [update|b|s]; [done| |].
  - unfold serve_call, Write.
    destruct (bool_decide (status l = 0));
      rewrite ExtractGAPMetadata_eq; unfold w_Write, w_WriteHeader, Header_of;
      cbn [w header wrote written status size upstream authInfo fst snd];
      by destruct (wrote (w l)).
  - unfold serve_call, WriteHeader. rewrite ExtractGAPMetadata_eq.
    unfold w_WriteHeader, Header_of.
    cbn [w header wrote written status size upstream authInfo].
    by destruct (wrote (w l)).
Qed.

Lemma recorded_stays (value before : string) : before ≠ "" → recorded value before ≠ "".
Proof. intros Hb. unfold recorded. by case_bool_decide. Qed.

(** What the logger has recorded is never erased: once a user name or an
    upstream address is recorded, it stays non-empty whatever the handler
    does afterwards. *)
Theorem recorded_values_stay (calls : list call) (l : responseLogger) :
  (authInfo l ≠ "" → authInfo (foldl serve_call l calls) ≠ "")
  ∧ (upstream l ≠ "" → upstream (foldl serve_call l calls) ≠ "").
Proof.
  revert l. induction calls as [|c calls IH]; intros l; [done|].
  cbn [foldl]. destruct (IH (serve_call l c)) as [IHa IHu].
  assert ((authInfo l ≠ "" → authInfo (serve_call l c) ≠ "")
          ∧ (upstream l ≠ "" → upstream (serve_call l c) ≠ "")) as [Ha Hu].
  { rewrite serve_call_fields.
    destruct c; cbn [with_header authInfo upstream]; split; intros Hl;
      by try apply recorded_stays. }
  split; intros Hl; [apply IHa, Ha, Hl|apply IHu, Hu, Hl].
Qed.

Lemma wrap64_add_l (a b : Z) : wrap64 (wrap64 a + b) = wrap64 (a + b).
Proof.
  unfold wrap64.
  replace ((a + 2 ^ 63) `mod` 2 ^ 64 - 2 ^ 63 + b + 2 ^ 63)
    with ((a + 2 ^ 63) `mod` 2 ^ 64 + b) by lia.
  rewrite Zplus_mod_idemp_l. f_equal. f_equal. lia.
Qed.

Lemma length_append (s t : string) :
  String.length (s +:+ t) = (String.length s + String.length t)%nat.
Proof.
  induction s as [|c s IH]; [done|].
  rewrite OktaFacts.append_cons. cbn [String.length]. by rewrite IH.
Qed.

(** *** The size over any underlying writer

    [l.Write(b)] hands [b] to the underlying writer and adds to the size
    the count that writer reports.  What the writer reports is its own
    affair: it may take fewer bytes than it is given, or none, and report
    an error.  The writer's [Write] is therefore a parameter of this
    part. *)

(** [l.Write(b)] over an underlying writer whose [Write] is [write];
    [Logging.Write] is the case of [w_Write]. *)
Definition Write_over
    (write : ResponseWriter → string → ResponseWriter * (Z * option error))
    (l : responseLogger) (b : string) : responseLogger * (Z * option error) :=
  let l1 :=
    if bool_decide (status l = 0) then
      mkResponseLogger (w l) 200 (size l) (upstream l) (authInfo l)
    else l in
  let l2 := ExtractGAPMetadata l1 in
  let '(w', (size_, err)) := write (w l2) b in
  (mkResponseLogger w' (status l2) (wrap64 (size l2 + size_)) (upstream l2)
     (authInfo l2),
   (size_, err)).

(** The logger after a run of calls over such a writer, with what each
    [Write] of the run returned to the handler, in order. *)
Fixpoint run_over
    (write : ResponseWriter → string → ResponseWriter * (Z * option error))
    (l : responseLogger) (calls : list call)
  : responseLogger * list (Z * option error) :=
  match calls with
  | [] => (l, [])
  | CallWrite b :: rest =>
      let r := Write_over write l b in
      let rs := run_over write r.1 rest in
      (rs.1, r.2 :: rs.2)
  | c :: rest => run_over write (serve_call l c) rest
  end.

Definition serve_over
    (write : ResponseWriter → string → ResponseWriter * (Z * option error))
    (calls : list call) (w0 : ResponseWriter)
  : responseLogger * list (Z * option error) :=
  run_over write (mkResponseLogger w0 0 0 "" "") calls.

(** The sum of the byte counts of a list of results. *)
Definition reported (results : list (Z * option error)) : Z :=
  foldr (λ r n, r.1 + n) 0 results.

(** One [Write], field by field: the writer is given the bytes and the
    writer as it stands, with the two headers stripped from its map, and
    its answer is returned as it is. *)
Lemma Write_over_fields
    (write : ResponseWriter → string → ResponseWriter * (Z * option error))
    (l : responseLogger) (b : string) :
  Write_over write l b
  = let r := write (mkResponseWriter (stripped (Header_of l)) (wrote (w l))
                      (written (w l))) b in
    (mkResponseLogger r.1
       (if bool_decide (status l = 0) then 200 else status l)
       (wrap64 (size l + r.2.1))
       (recorded (Get (Header_of l) "GAP-Upstream-Address") (upstream l))
       (recorded (Get (Header_of l) "GAP-Auth") (authInfo l)),
     r.2).
Proof.
  unfold Write_over.
  destruct (bool_decide (status l = 0));
    rewrite ExtractGAPMetadata_eq; unfold Header_of;
    cbn [w header wrote written status size upstream authInfo];
    by destruct (write _ b) as [w' [n err]].
Qed.

Lemma run_over_size
    (write : ResponseWriter → string → ResponseWriter * (Z * option error))
    (calls : list call) (l : responseLogger) :
  size (run_over write l calls).1
  = wrap64 (size l + reported (run_over write l calls).2)
  ∨ ((run_over write l calls).2 = [] ∧ size (run_over write l calls).1 = size l).
Proof.
  revert l. induction calls as [|c calls IH]; intros l; [by right|].
  destruct c as [update|b|s].
  - cbn [run_over]. apply (IH (serve_call l (CallHeader update))).
  - cbn [run_over fst snd]. left.
    assert (size (Write_over write l b).1
            = wrap64 (size l + (Write_over write l b).2.1)) as Hstep
      by (by rewrite Write_over_fields).
    cbn [reported foldr]. fold (reported (run_over write (Write_over write l b).1 calls).2).
    destruct (IH (Write_over write l b).1) as [->|[-> ->]].
    + rewrite Hstep, wrap64_add_l. f_equal. lia.
    + rewrite Hstep. cbn [reported foldr]. f_equal. lia.
  - cbn [run_over].
    assert (size (serve_call l (CallWriteHeader s)) = size l) as Hstep
      by (by rewrite serve_call_fields).
    rewrite <- Hstep. apply (IH (serve_call l (CallWriteHeader s))).
Qed.

Lemma run_over_in_full
    (write : ResponseWriter → string → ResponseWriter * (Z * option error))
    (calls : list call) (l : responseLogger) :
  (∀ w b, (write w b).2.1 = Z.of_nat (String.length b)) →
  reported (run_over write l calls).2 = Z.of_nat (String.length (payload calls)).
Proof.
  intros Hfull. revert l. induction calls as [|c calls IH]; intros l; [done|].
  destruct c as [update|b|s]; cbn [run_over payload fst snd]; [apply IH| |apply IH].
  cbn [reported foldr]. fold (reported (run_over write (Write_over write l b).1 calls).2).
  rewrite IH, length_append, Nat2Z.inj_add. f_equal.
  rewrite Write_over_fields. cbn [snd]. apply Hfull.
Qed.

Lemma run_over_w_Write (calls : list call) (l : responseLogger) :
  (run_over w_Write l calls).1 = foldl serve_call l calls.
Proof.
  revert l. induction calls as [|c calls IH]; intros l; [done|].
  destruct c as [update|b|s]; cbn [run_over foldl fst]; apply IH.
Qed.

(** The size the logger reports is what the underlying writer reported:
    whatever that writer's [Write] does, each [Write] of the logger gives
    it the bytes and returns its answer as it is, and [Size] is the sum
    (as an [int]) of the byte counts returned.  Over a writer that reports
    every write in full it is the length of the body; and over the
    writer of the model the run is the run of [serve]. *)
Theorem logger_adds_up_reported_sizes
    (write : ResponseWriter → string → ResponseWriter * (Z * option error))
    (calls : list call) (w0 : ResponseWriter) :
  (∀ l b, (Write_over write l b).2
          = (write (mkResponseWriter (stripped (Header_of l)) (wrote (w l))
                      (written (w l))) b).2)
  ∧ Size (serve_over write calls w0).1
    = wrap64 (reported (serve_over write calls w0).2)
  ∧ ((∀ w b, (write w b).2.1 = Z.of_nat (String.length b)) →
     Size (serve_over write calls w0).1
     = wrap64 (Z.of_nat (String.length (payload calls))))
  ∧ (serve_over w_Write calls w0).1 = serve calls w0.
Proof.
  assert (Size (serve_over write calls w0).1
          = wrap64 (reported (serve_over write calls w0).2)) as Hsize.
  { unfold serve_over, Size.
    destruct (run_over_size write calls (mkResponseLogger w0 0 0 "" ""))
      as [->|[-> ->]]; [by rewrite Z.add_0_l|done]. }
  split; [intros l b; by rewrite Write_over_fields|].
  split; [exact Hsize|].
  split; [|apply run_over_w_Write].
  intros Hfull. rewrite Hsize. unfold serve_over. by rewrite run_over_in_full.
Qed.

Lemma serve_wrote_stays (calls : list call) (l : responseLogger) (sent : Z * Header) :
  wrote (w l) = Some sent → wrote (w (foldl serve_call l calls)) = Some sent.
Proof.
  revert l. induction calls as [|c calls IH]; intros l Hw; [done|].
  cbn [foldl]. apply IH. rewrite serve_call_fields.
  destruct c; cbn [with_header w wrote]; by rewrite ?Hw.
Qed.

Lemma serve_status_stays (calls : list call) (l : responseLogger) :
  status l ≠ 0 →
  Forall (λ c, ¬ is_WriteHeader c) calls →
  status (foldl serve_call l calls) = status l.
Proof.
  revert l. induction calls as [|c calls IH]; intros l Hs Hall; [done|].
  apply Forall_cons in Hall as [Hc Hall]. cbn [foldl].
  assert (status (serve_call l c) = status l) as Hstep.
  { rewrite serve_call_fields. destruct c as [update|b|s]; cbn [with_header status].
    - done.
    - by rewrite bool_decide_eq_false_2.
    - by destruct Hc. }
  rewrite IH; [done|by rewrite Hstep|done].
Qed.

(** Calls that only change the header map leave the rest of the logger
    alone. *)
Lemma serve_header_updates_rest (calls : list call) (l : responseLogger) :
  Forall is_header_update calls →
  status (foldl serve_call l calls) = status l
  ∧ size (foldl serve_call l calls) = size l
  ∧ written (w (foldl serve_call l calls)) = written (w l).
Proof.
  revert l. induction calls as [|c calls IH]; intros l Hall; [done|].
  apply Forall_cons in Hall as [Hc Hall]. destruct c as [update| |]; try done.
  cbn [foldl serve_call]. by destruct (IH (with_header l (update (Header_of l))) Hall)
    as (-> & -> & ->).
Qed.

(** The status in the log is the status that was sent when the handler
    writes the way handlers usually do: headers first, on a response of
    which nothing was sent; then a first write that is a [Write], or a
    [WriteHeader] with a final status code, from 200 to 999 (an
    informational code below 200 is no final status for an HTTP server,
    and a code outside 100 to 999 is refused by it); and no [WriteHeader]
    after it. *)
Theorem logged_status_is_sent_status (w0 : ResponseWriter) (pre : list call)
    (c : call) (post : list call) :
  wrote w0 = None →
  Forall is_header_update pre →
  is_write c →
  (∀ s, c = CallWriteHeader s → 200 ≤ s ≤ 999) →
  Forall (λ c, ¬ is_WriteHeader c) post →
  Status (serve (pre ++ c :: post) w0)
  = match c with CallWriteHeader s => s | _ => 200 end
  ∧ fst <$> wrote (w (serve (pre ++ c :: post) w0))
    = Some (Status (serve (pre ++ c :: post) w0)).
Proof.
  intros Hw0 Hpre Hc Hfinal Hpost. unfold serve, Status. rewrite foldl_app. cbn [foldl].
  pose proof (serve_header_updates pre (mkResponseLogger w0 0 0 "" "") Hpre) as Hmeta.
  pose proof (f_equal (λ m, m.1.1.2) Hmeta) as Hwr. cbn [metadata fst snd w] in Hwr.
  destruct (serve_header_updates_rest pre (mkResponseLogger w0 0 0 "" "") Hpre)
    as (Hst & _ & _). cbn [status] in Hst.
  set (l1 := foldl serve_call (mkResponseLogger w0 0 0 "" "") pre) in *.
  rewrite Hw0 in Hwr.
  assert (status (serve_call l1 c) = match c with CallWriteHeader s => s | _ => 200 end
          ∧ status (serve_call l1 c) ≠ 0
          ∧ ∃ hs, wrote (w (serve_call l1 c)) = Some (status (serve_call l1 c), hs))
    as (Hs2 & Hne & hs & Hw2).
  { rewrite serve_call_fields. destruct c as [update|b|s]; [done| |];
      cbn [w wrote status]; rewrite Hwr.
    - rewrite Hst. rewrite bool_decide_eq_true_2 by done.
      split; [done|]. split; [done|]. by eexists.
    - split; [done|]. split; [specialize (Hfinal s eq_refl); lia|]. by eexists. }
  rewrite (serve_status_stays post _ Hne Hpost).
  rewrite (serve_wrote_stays post _ _ Hw2). by rewrite Hs2.
Qed.

(** *** The request body in the log *)





Section WithLib.
Context `{Lib}.


(** A handler that sets headers and returns without writing: the header
    map reaches the server as the handler left it, with the two headers
    still in it; nothing is recorded, so the log line has [-] as upstream
    and the URL's user name or [-] as user name; and the log line reports
    status 0 and size 0. *)
Theorem handler_that_never_writes (h : loggingHandler) (w0 : ResponseWriter)
    (req : Request) (world : World) :
  enabled h = true →
  Forall is_header_update (handler h (read_body h req).2).1 →
  ∃ data,
    (ServeHTTP h w0 req world).1
    = Returns (mkResponseWriter
                 (updated (header w0) (handler h (read_body h req).2).1)
                 (wrote w0) (written w0))
    ∧ out (ServeHTTP h w0 req world).2
      = (out world +:+ template_Execute (logTemplate h) data) +:+ String newline ""
    ∧ StatusCode data = "0"
    ∧ ResponseSize data = "0"
    ∧ Upstream data = "-"
    ∧ Username data
      = (if bool_decide (Url.Username (User (ReqURL req)) ≠ "")
         then Url.Username (User (ReqURL req)) else "-").
Proof.
  intros Hen Hall.
  unfold ServeHTTP, bind, time_Now, writeLogLine, bind, time_Now, writer_Write, ret.
  destruct (read_body h req) as [body req1]. cbn [snd] in Hall |- *.
  destruct (handler h req1) as [calls req2]. cbn [fst] in Hall |- *.
  rewrite Hen. cbn [negb fst snd out clock reads].
  pose proof (serve_header_updates calls (mkResponseLogger w0 0 0 "" "") Hall) as Hmeta.
  destruct (serve_header_updates_rest calls (mkResponseLogger w0 0 0 "" "") Hall)
    as (Hst & Hsz & Hwr).
  fold (serve calls w0) in Hmeta, Hst, Hsz, Hwr.
  unfold metadata, Header_of in Hmeta. cbn [w header wrote status size written
    upstream authInfo] in Hmeta, Hst, Hsz, Hwr.
  injection Hmeta as Hh Hw Hup Hauth.
  eexists. split; [|split; [reflexivity|]].
  - f_equal. destruct (w (serve calls w0)) as [h' w' b']. cbn [header wrote written] in *.
    by subst.
  - rewrite logMessage_Upstream, logMessage_Username. unfold logMessage, Status, Size.
    cbn [StatusCode ResponseSize]. rewrite Hst, Hsz, Hup, Hauth.
    split; [done|]. split; [done|]. split; [done|].
    by rewrite (bool_decide_eq_true_2 (_ ∨ _)) by (by left).
Qed.

End WithLib.

(** *** The theorems at concrete inputs *)

Import Samples.
#[local] Existing Instance logging_lib.

(** A logger whose [GAP-Auth] header has the values [""] and [alice]. *)
Definition two_valued : responseLogger :=
  mkResponseLogger
    (mkResponseWriter {["Gap-Auth" := [""; "alice"]]} None "") 0 0 "" "".

Lemma empty_first_value_is_kept_witness :
  Header_of two_valued !! "Gap-Auth" = Some [""; "alice"]
  ∧ authInfo (serve_call two_valued (CallWriteHeader 200)) = ""
  ∧ ∃ s hs, wrote (w (serve_call two_valued (CallWriteHeader 200))) = Some (s, hs)
            ∧ hs !! "Gap-Auth" = Some [""; "alice"].
Proof.
  assert (Header_of two_valued !! "Gap-Auth" = Some [""; "alice"]) as Hh
    by reflexivity.
  split; [exact Hh|].
  exact (empty_first_value_is_kept two_valued (CallWriteHeader 200) ["alice"]
           Hh I eq_refl).
Defined.

(** A writer that takes no body once the status sent is 204 or 304, as an
    HTTP server's does: it reports no byte and an error. *)
Definition bodiless_Write (w : ResponseWriter) (b : string)
  : ResponseWriter * (Z * option error) :=
  match wrote w with
  | Some (s, _) =>
      if bool_decide (s = 204 ∨ s = 304) then
        (w, (0, Some (errorString
                        "http: request method or response status code does not allow body")))
      else w_Write w b
  | None => w_Write w b
  end.

(** Over that writer a body after [WriteHeader(204)] adds nothing to the
    size; over the writer of the model two writes add up. *)
Lemma logger_adds_up_reported_sizes_witness :
  (serve_over bodiless_Write [CallWriteHeader 204; CallWrite "body"] fresh).2
  = [(0, Some (errorString
                 "http: request method or response status code does not allow body"))]
  ∧ Size (serve_over bodiless_Write [CallWriteHeader 204; CallWrite "body"] fresh).1 = 0
  ∧ Size (serve_over w_Write [CallWrite "he"; CallWrite "llo"] fresh).1 = 5
  ∧ Size (serve [CallWrite "he"; CallWrite "llo"] fresh) = 5.
Proof.
  destruct (logger_adds_up_reported_sizes bodiless_Write
              [CallWriteHeader 204; CallWrite "body"] fresh) as (_ & Hsize & _).
  destruct (logger_adds_up_reported_sizes w_Write
              [CallWrite "he"; CallWrite "llo"] fresh) as (_ & _ & Hfull & Hserve).
  split; [reflexivity|]. split; [rewrite Hsize; reflexivity|].
  split; [rewrite (Hfull (λ _ _, eq_refl)); reflexivity|].
  rewrite <- Hserve, (Hfull (λ _ _, eq_refl)). reflexivity.
Defined.

(** Headers, then [WriteHeader(404)], then the body. *)
Lemma logged_status_is_sent_status_witness :
  Status (serve ([set_both] ++ CallWriteHeader 404 :: [CallWrite "not found"]) fresh)
  = 404
  ∧ fst <$> wrote (w (serve ([set_both] ++ CallWriteHeader 404
                                :: [CallWrite "not found"]) fresh))
    = Some (Status (serve ([set_both] ++ CallWriteHeader 404
                             :: [CallWrite "not found"]) fresh)).
Proof.
  apply (logged_status_is_sent_status fresh [set_both] (CallWriteHeader 404)
           [CallWrite "not found"] eq_refl).
  - by repeat constructor.
  - exact I.
  - intros s [= <-]. lia.
  - repeat constructor. by intros [].
Defined.

(** The handler that sets [GAP-Auth] and returns. *)
Lemma handler_that_never_writes_witness :
  enabled sets_and_returns = true
  ∧ ∃ data,
      (ServeHTTP sets_and_returns fresh (request None) log_world).1
      = Returns (mkResponseWriter {["Gap-Auth" := ["alice"]]} None "")
      ∧ StatusCode data = "0"
      ∧ Username data = "-".
Proof.
  split; [reflexivity|].
  destruct (handler_that_never_writes sets_and_returns fresh (request None)
              log_world eq_refl)
    as (data & Hres & _ & Hstatus & _ & _ & Hname).
  { by repeat constructor. }
  exists data. split; [|split; [exact Hstatus|exact Hname]].
  rewrite Hres. vm_compute. reflexivity.
Defined.

End LoggingMore.
